(** * A shallow embedding of the travel assistant's agent loop

    The embedded code is [src/agents/agent.py] (the tool-calling loop, its
    tool executor, its error formatting and its fallback), the validation
    prefix of [src/agents/tools/weather_check.py], and the degraded-result
    check of [src/travel_assistant.py]. *)

From Stdlib Require Import String Ascii ZArith List Lia Bool.
From stdpp Require Import base option gmap strings list pretty.
Import ListNotations.

Local Open Scope string_scope.

(** ** Python strings

    Strings are Rocq strings; the text the program itself produces is ASCII.
    [upper] is [str.upper] on that range, [str_in] is the [in] operator of
    two strings and [join] is [sep.join(items)]. *)
Module PyStr.

Definition upper_ascii (c : ascii) : ascii :=
  let n := nat_of_ascii c in
  if (97 <=? n)%nat && (n <=? 122)%nat then ascii_of_nat (n - 32) else c.

Fixpoint upper (s : string) : string :=
  match s with
  | EmptyString => EmptyString
  | String c rest => String (upper_ascii c) (upper rest)
  end.

(** [startswith s p]: [s.startswith(p)]. *)
Fixpoint startswith (s p : string) {struct p} : bool :=
  match p, s with
  | EmptyString, _ => true
  | String _ _, EmptyString => false
  | String a p', String b s' => Ascii.eqb a b && startswith s' p'
  end.

(** [str_in needle hay]: [needle in hay]. *)
Fixpoint str_in (needle hay : string) : bool :=
  match hay with
  | EmptyString => startswith EmptyString needle
  | String _ rest => startswith hay needle || str_in needle rest
  end.

Fixpoint join (sep : string) (items : list string) : string :=
  match items with
  | [] => ""
  | [x] => x
  | x :: rest => x ++ sep ++ join sep rest
  end.

(** [has_char c s]: the one-character string [c] is [in s]. *)
Fixpoint has_char (c : ascii) (s : string) : bool :=
  match s with
  | EmptyString => false
  | String a rest => Ascii.eqb c a || has_char c rest
  end.

End PyStr.

(** ** Python values returned by tools

    A tool returns an arbitrary Python object.  The executor only ever asks
    three things of it: is it a [dict], does that dict have a given key, and
    what is its [str()].  A dict is kept as its items (string keys, first
    binding wins) together with the text the interpreter prints for it; any
    other non-string object is kept as its printed text alone. *)
#[warnings="-register-all"]
Inductive pyval : Type :=
| PyStr_ (s : string)
| PyDict (shown : string) (items : list (string * pyval))
| PyObj (shown : string).

(** [py_str v] is [str(v)], which is also what an f-string field prints. *)
Definition py_str (v : pyval) : string :=
  match v with
  | PyStr_ s => s
  | PyDict shown _ => shown
  | PyObj shown => shown
  end.

Fixpoint dict_get (items : list (string * pyval)) (key : string) : option pyval :=
  match items with
  | [] => None
  | (k, v) :: rest => if String.eqb k key then Some v else dict_get rest key
  end.

(** [error_entry result]: [Some result['error']] exactly when
    [isinstance(result, dict) and 'error' in result]. *)
Definition error_entry (result : pyval) : option pyval :=
  match result with
  | PyDict _ items => dict_get items "error"
  | _ => None
  end.

(** ** Exceptions and outcomes *)

(** An exception is its class name and the text [str(e)] gives. *)
Record exn : Type := Exn { exn_class : string; exn_text : string }.

Definition ToolExecutionError (msg : string) : exn := Exn "ToolExecutionError" msg.
Definition IndexError : exn := Exn "IndexError" "list index out of range".
Definition AttributeError (msg : string) : exn := Exn "AttributeError" msg.

Inductive outcome (A : Type) : Type :=
| Returned (a : A)
| Raised (e : exn).
Arguments Returned {A} a.
Arguments Raised {A} e.

(** ** Messages *)

Record tool_call : Type := ToolCall {
  tc_name : string;
  tc_args : pyval;
  tc_id : string
}.

(** What the model client answers: an assistant message. *)
Record ai_message : Type := AI {
  ai_content : string;
  ai_tool_calls : list tool_call
}.

Inductive message : Type :=
| SystemMessage (content : string)
| HumanMessage (content : string)
| AIMessage (m : ai_message)
| ToolMessage (tool_call_id name content : string).

Definition content (m : message) : string :=
  match m with
  | SystemMessage c => c
  | HumanMessage c => c
  | AIMessage m => ai_content m
  | ToolMessage _ _ c => c
  end.

Definition is_system (m : message) : bool :=
  match m with SystemMessage _ => true | _ => false end.

Definition is_tool_message (m : message) : bool :=
  match m with ToolMessage _ _ _ => true | _ => false end.

(** ** The agent *)
Module Agent.

Import PyStr.

(** [_format_error_message] *)
Definition _format_error_message (tool_name error : string) : string :=
  "[" ++ upper tool_name ++ " ERROR] " ++ error
      ++ ". The assistant will continue with available information.".

(** [TOOLS_SYSTEM_PROMPT], an f-string over [CURRENT_YEAR]. *)
Definition TOOLS_SYSTEM_PROMPT (CURRENT_YEAR : N) : string :=
  "You are a smart travel agency. Use the tools to look up information.
    You are allowed to make multiple calls (either together or in sequence).
    Only look up information when you are sure of what you want.
    The current year is " ++ pretty CURRENT_YEAR ++ ".
    If you need to look up some information before asking a follow up question, you are allowed to do that!
    I want to have in your output links to hotels websites and flights websites (if possible).
    I want to have as well the logo of the hotel. (if possible).
    In your output always include the price of the flight and the price of the hotel and the currency as well (if possible).
    for example for hotels-
    Rate: $581 per night
    Total: $3,488
    ".

(** The f-string of [_generate_fallback_plan]. *)
Definition fallback_prompt (original_prompt : string) (failed_tools : list string) : string :=
  "
        The following tools failed: " ++ join ", " failed_tools ++ ".
        Original request: " ++ original_prompt ++ "
        
        Please generate a travel plan using only the information we have available.
        Focus on providing:
        1. A general daily itinerary
        2. Local attractions and restaurant recommendations
        3. General packing tips
        4. A basic travel checklist
        
        Clearly indicate which information is missing and provide alternative suggestions where possible.
        ".

Section WithWorld.

(** Everything outside the process (the model provider, the search and
    weather services, the clock) is a state of type [World] that each
    external call reads and advances. *)
Context {World : Type}.

(** A registered tool: [tool.invoke(args)] returns a value or raises. *)
Definition tool : Type := pyval -> World -> World * outcome pyval.

(** The bound chat model: [llm.invoke(messages)] returns an assistant
    message or raises. *)
Definition chat_model : Type := list message -> World -> World * outcome ai_message.

(** The instance attributes of [Agent]. *)
Record Agent : Type := mkAgent {
  _tools : gmap string tool;
  _tools_llm : chat_model;
  _error_count : nat;
  _max_retries : nat
}.

(** The effect state threaded through the loop: the outside world, and
    the requests handed to the chat model so far, oldest first. *)
Record env : Type := mkEnv {
  world : World;
  sent : list (list message)
}.

Definition llm_invoke (self : Agent) (messages : list message) (e : env)
  : env * outcome ai_message :=
  let '(w, r) := _tools_llm self messages (world e) in
  (mkEnv w (sent e ++ [messages])%list, r).

(** [Agent.__init__]: the registry is keyed by each tool's name, the
    counter starts at 0 and the threshold is 3. *)
Definition init (flights_finder hotels_finder weather_check : tool)
    (llm : chat_model) : Agent :=
  {| _tools := list_to_map [("flights_finder", flights_finder);
                            ("hotels_finder", hotels_finder);
                            ("weather_check", weather_check)];
     _tools_llm := llm;
     _error_count := 0;
     _max_retries := 3 |}.

Definition set_error_count (self : Agent) (n : nat) : Agent :=
  {| _tools := _tools self;
     _tools_llm := _tools_llm self;
     _error_count := n;
     _max_retries := _max_retries self |}.

(** *** The tool executor: the [for] loop of [invoke_tools] *)

(** The [try] body up to the value of [result], or the exception raised
    in it.  An unknown name raises inside the [try]. *)
Definition call_tool (self : Agent) (tc : tool_call) (w : World)
  : World * outcome pyval :=
  match _tools self !! tc_name tc with
  | None =>
      (w, Raised (ToolExecutionError ("Tool '" ++ tc_name tc ++ "' not found")))
  | Some t => t (tc_args tc) w
  end.

(** One iteration: the result message appended to [results], and
    [Some tool_name] when the name is appended to [failed_tools]. *)
Definition run_tool_call (self : Agent) (tc : tool_call) (w : World)
  : World * message * option string :=
  let tool_name := tc_name tc in
  let tool_id := tc_id tc in
  match call_tool self tc w with
  | (w', Returned result) =>
      match error_entry result with
      | Some err =>
          let error_msg := _format_error_message tool_name (py_str err) in
          (w', ToolMessage tool_id tool_name error_msg, Some tool_name)
      | None =>
          (w', ToolMessage tool_id tool_name (py_str result), None)
      end
  | (w', Raised e) =>
      let error_msg := _format_error_message tool_name (exn_text e) in
      (w', ToolMessage tool_id tool_name error_msg, Some tool_name)
  end.

(** The three components of one iteration. *)
Definition world_after (self : Agent) (tc : tool_call) (w : World) : World :=
  (run_tool_call self tc w).1.1.
Definition result_of (self : Agent) (tc : tool_call) (w : World) : message :=
  (run_tool_call self tc w).1.2.
Definition failed_of (self : Agent) (tc : tool_call) (w : World) : option string :=
  (run_tool_call self tc w).2.

(** The whole loop, with the two accumulators of the source. *)
Fixpoint tool_loop (self : Agent) (tool_calls : list tool_call) (w : World)
    (results : list message) (failed_tools : list string)
  : World * list message * list string :=
  match tool_calls with
  | [] => (w, results, failed_tools)
  | tc :: rest =>
      let '(w', msg, failed) := run_tool_call self tc w in
      tool_loop self rest w' (results ++ [msg])%list
        (match failed with
         | Some name => (failed_tools ++ [name])%list
         | None => failed_tools
         end)
  end.

Definition execute_tools (self : Agent) (tool_calls : list tool_call) (w : World)
  : World * list message * list string :=
  tool_loop self tool_calls w [] [].

(** *** The graph nodes *)

(** [_generate_fallback_plan] *)
Definition _generate_fallback_plan (year : N) (self : Agent)
    (original_prompt : string) (failed_tools : list string) (e : env)
  : env * outcome ai_message :=
  let messages := [SystemMessage (TOOLS_SYSTEM_PROMPT year);
                   HumanMessage (fallback_prompt original_prompt failed_tools)] in
  llm_invoke self messages e.

(** [exists_action]: the conditional edge out of [call_tools_llm]. *)
Inductive branch : Type := more_tools | done_.

Definition exists_action (messages : list message) : outcome branch :=
  match last messages with
  | None => Raised IndexError
  | Some (AIMessage m) =>
      match ai_tool_calls m with
      | [] => Returned done_
      | _ :: _ => Returned more_tools
      end
  | Some _ => Returned done_
  end.

(** [call_tools_llm]: the state update [{'messages': [message]}]. *)
Definition call_tools_llm (year : N) (self : Agent) (messages : list message) (e : env)
  : env * outcome (list message) :=
  let messages := ([SystemMessage (TOOLS_SYSTEM_PROMPT year)] ++ messages)%list in
  match llm_invoke self messages e with
  | (e', Returned message) => (e', Returned [AIMessage message])
  | (e', Raised x) => (e', Raised x)
  end.

(** [invoke_tools]: the agent after the pass, the effect state, and the
    state update or the exception that leaves the node. *)
Definition invoke_tools (year : N) (self : Agent) (messages : list message) (e : env)
  : Agent * env * outcome (list message) :=
  match last messages with
  | None => (self, e, Raised IndexError)
  | Some (AIMessage m) =>
      let tool_calls := ai_tool_calls m in
      let '(w, results, failed_tools) := execute_tools self tool_calls (world e) in
      let e := mkEnv w (sent e) in
      let self :=
        match failed_tools with
        | [] => self
        | _ :: _ => set_error_count self (_error_count self + 1)
        end in
      if (_max_retries self <=? _error_count self)%nat then
        match messages with
        | [] => (self, e, Raised IndexError)
        | first :: _ =>
            match _generate_fallback_plan year self (content first) failed_tools e with
            | (e', Returned final_message) => (self, e', Returned [AIMessage final_message])
            | (e', Raised x) => (self, e', Raised x)
            end
        end
      else (self, e, Returned results)
  | Some _ =>
      (self, e, Raised (AttributeError "object has no attribute 'tool_calls'"))
  end.

(** *** The graph

    [call_tools_llm] is the entry point; its conditional edge follows
    [exists_action]; the edge out of [invoke_tools] always leads back to
    [call_tools_llm].  A node's update is appended to the stored
    messages ([operator.add]). *)
Inductive node : Type := call_tools_llm_node | invoke_tools_node | END.

Record config : Type := mkConfig {
  at_node : node;
  messages : list message;
  self_ : Agent;
  eff : env
}.

Inductive step_result : Type :=
| Next (c : config)
| Crash (x : exn) (c : config).

Definition step (year : N) (c : config) : step_result :=
  match at_node c with
  | call_tools_llm_node =>
      match call_tools_llm year (self_ c) (messages c) (eff c) with
      | (e', Returned update) =>
          let messages' := (messages c ++ update)%list in
          match exists_action messages' with
          | Returned more_tools =>
              Next (mkConfig invoke_tools_node messages' (self_ c) e')
          | Returned done_ =>
              Next (mkConfig END messages' (self_ c) e')
          | Raised x =>
              Crash x (mkConfig call_tools_llm_node messages' (self_ c) e')
          end
      | (e', Raised x) =>
          Crash x (mkConfig call_tools_llm_node (messages c) (self_ c) e')
      end
  | invoke_tools_node =>
      match invoke_tools year (self_ c) (messages c) (eff c) with
      | (self', e', Returned update) =>
          Next (mkConfig call_tools_llm_node (messages c ++ update)%list self' e')
      | (self', e', Raised x) =>
          Crash x (mkConfig invoke_tools_node (messages c) self' e')
      end
  | END => Next c
  end.

(** What [graph.invoke] gives its caller: the final state, an exception
    raised by a node, or the graph library's own error once [limit]
    nodes have run without reaching [END]. *)
Inductive run_result : Type :=
| Finished (c : config)
| Failed (x : exn) (c : config)
| GraphRecursionError (c : config).

Fixpoint run (year : N) (limit : nat) (c : config) : run_result :=
  match at_node c with
  | END => Finished c
  | _ =>
      match limit with
      | O => GraphRecursionError c
      | S limit' =>
          match step year c with
          | Next c' => run year limit' c'
          | Crash x c' => Failed x c'
          end
      end
  end.

(** [graph.invoke({'messages': input}, config)]: the input is appended to
    the messages stored for the thread and the entry point runs. *)
Definition graph_invoke (year : N) (limit : nat) (self : Agent) (e : env)
    (stored input : list message) : run_result :=
  run year limit (mkConfig call_tools_llm_node (stored ++ input)%list self e).

Definition step_next (year : N) (c : config) : option config :=
  match step year c with
  | Next c' => Some c'
  | Crash _ _ => None
  end.

(** [nsteps year n c]: the configuration after [n] nodes, if none raised. *)
Fixpoint nsteps (year : N) (n : nat) (c : config) : option config :=
  match n with
  | O => Some c
  | S n' =>
      match step year c with
      | Next c' => nsteps year n' c'
      | Crash _ _ => None
      end
  end.

(** [messages[0]] of a state whose last message is [last_message]. *)
Definition first_of (history : list message) (last_message : message) : message :=
  hd last_message history.

(** The agent after a pass whose loop recorded [failed_tools]. *)
Definition counted (self : Agent) (failed_tools : list string) : Agent :=
  match failed_tools with
  | [] => self
  | _ :: _ => set_error_count self (_error_count self + 1)
  end.

Definition final_config (r : run_result) : config :=
  match r with
  | Finished c => c
  | Failed _ c => c
  | GraphRecursionError c => c
  end.

(** [lives_on year self self']: [self'] is the instance [self] after any
    number of tool-execution passes, on whatever messages and in
    whatever world.  ([call_tools_llm] and [_generate_fallback_plan]
    assign no attribute.) *)
Inductive lives_on (year : N) (self : Agent) : Agent → Prop :=
| lives_on_now : lives_on year self self
| lives_on_pass self' messages e :
    lives_on year self self' →
    lives_on year self (invoke_tools year self' messages e).1.1.

(** The threshold test of [invoke_tools]. *)
Definition threshold_reached (self : Agent) : Prop :=
  (_max_retries self <= _error_count self)%nat.

(** A request that opens with the system prompt. *)
Definition opens_with_system_prompt (year : N) (request : list message) : Prop :=
  head request = Some (SystemMessage (TOOLS_SYSTEM_PROMPT year)).

End WithWorld.

Arguments tool : clear implicits.
Arguments chat_model : clear implicits.
Arguments Agent : clear implicits.
Arguments env : clear implicits.
Arguments config : clear implicits.
Arguments step_result : clear implicits.
Arguments run_result : clear implicits.

End Agent.

(** ** Calendar dates, as the weather tool uses them

    [strptime] is [datetime.strptime(s, '%Y-%m-%d')] reduced to the date it
    yields, as a proleptic Gregorian ordinal ([date.toordinal()]); [None] is
    a [ValueError].  The three fields are the groups of the pattern the
    library compiles for this format. *)
Module Datetime.

Local Open Scope Z_scope.

Definition digit (c : ascii) : option Z :=
  let n := Z.of_nat (nat_of_ascii c) in
  if (48 <=? n) && (n <=? 57) then Some (n - 48) else None.

Definition _is_leap (year : Z) : bool :=
  (year mod 4 =? 0) && (negb (year mod 100 =? 0) || (year mod 400 =? 0)).

Definition _days_before_year (year : Z) : Z :=
  let y := year - 1 in y * 365 + y / 4 - y / 100 + y / 400.

Definition _DAYS_IN_MONTH : list Z :=
  [-1; 31; 28; 31; 30; 31; 30; 31; 31; 30; 31; 30; 31].

Definition _DAYS_BEFORE_MONTH : list Z :=
  [-1; 0; 31; 59; 90; 120; 151; 181; 212; 243; 273; 304; 334].

Definition _days_in_month (year month : Z) : Z :=
  if (month =? 2) && _is_leap year then 29
  else nth (Z.to_nat month) _DAYS_IN_MONTH 0.

Definition _days_before_month (year month : Z) : Z :=
  nth (Z.to_nat month) _DAYS_BEFORE_MONTH 0
  + (if (2 <? month) && _is_leap year then 1 else 0).

Definition _ymd2ord (year month day : Z) : Z :=
  _days_before_year year + _days_before_month year month + day.

(** [%Y]: four digits. *)
Definition group_Y (s : string) : option (Z * string) :=
  match s with
  | String a (String b (String c (String d rest))) =>
      match digit a, digit b, digit c, digit d with
      | Some a, Some b, Some c, Some d =>
          Some (1000 * a + 100 * b + 10 * c + d, rest)
      | _, _, _, _ => None
      end
  | _ => None
  end.

Definition one_digit (lo hi : Z) (s : string) : list (Z * string) :=
  match s with
  | String a rest =>
      match digit a with
      | Some a => if (lo <=? a) && (a <=? hi) then [(a, rest)] else []
      | None => []
      end
  | EmptyString => []
  end.

Definition two_digits (lo1 hi1 lo2 hi2 : Z) (s : string) : list (Z * string) :=
  '(a, rest) ← one_digit lo1 hi1 s;
  '(b, rest) ← one_digit lo2 hi2 rest;
  [(10 * a + b, rest)].

Definition literal (c : ascii) (s : string) : list string :=
  match s with
  | String a rest => if Ascii.eqb a c then [rest] else []
  | EmptyString => []
  end.

(** [%m]: the alternatives 1[0-2], 0[1-9], [1-9], in this order. *)
Definition group_m (s : string) : list (Z * string) :=
  two_digits 1 1 0 2 s ++ two_digits 0 0 1 9 s ++ one_digit 1 9 s.

(** [%d]: the alternatives 3[0-1], [1-2][0-9], 0[1-9], [1-9], and a space
    before [1-9], in this order. *)
Definition group_d (s : string) : list (Z * string) :=
  two_digits 3 3 0 1 s ++ two_digits 1 2 0 9 s ++ two_digits 0 0 1 9 s
    ++ one_digit 1 9 s ++ (rest ← literal " " s; one_digit 1 9 rest).

(** The first way the whole pattern matches a prefix of [s]. *)
Definition match_ymd (s : string) : option (Z * Z * Z * string) :=
  '(y, rest) ← group_Y s;
  head (rest ← literal "-" rest;
        '(m, rest) ← group_m rest;
        rest ← literal "-" rest;
        '(d, rest) ← group_d rest;
        [(y, m, d, rest)]).

Definition strptime (s : string) : option Z :=
  match match_ymd s with
  | Some (y, m, d, EmptyString) =>
      if (1 <=? y) && (y <=? 9999) && (1 <=? d) && (d <=? _days_in_month y m)
      then Some (_ymd2ord y m d)
      else None
  | _ => None
  end.

End Datetime.

(** ** The weather tool: [weather_check], up to the upstream request *)
Module Weather.

Local Open Scope Z_scope.

Section WeatherCheck.

(** [strptime date]: the parsed date as an ordinal, [None] on
    [ValueError]. *)
Variable strptime : string -> option Z.

(** The rest of the function once both date checks have passed: the
    request to the forecast service and the dict built from its answer
    or from the exception it raised. *)
Variable fetch_forecast : string -> string -> string -> list (string * pyval).

(** The tool returns a dict on every path; it is kept as its items.
    [api_key] is [os.environ.get('WEATHER_API_KEY')] and [today] is
    [datetime.now().date()] as an ordinal. *)
Definition weather_check (api_key : option string) (today : Z)
    (location date : string) : list (string * pyval) :=
  match api_key with
  | Some (String k key) =>
      match strptime date with
      | None =>
          [("error", PyStr_ ("Invalid date format: " ++ date
                               ++ ". Must be in YYYY-MM-DD format."))]
      | Some forecast_date =>
          let max_forecast_days := 14 in
          let days_ahead := forecast_date - today in
          if days_ahead <? 0 then
            [("error", PyStr_ "Cannot check weather for a past date.")]
          else if max_forecast_days <? days_ahead then
            [("info", PyStr_ ("Real-time weather forecast is not available for "
                ++ date ++ " in " ++ location
                ++ ". Here is a general weather summary for this time of year based on historical data and LLM knowledge."))]
          else fetch_forecast (String k key) location date
      end
  | _ => [("error", PyStr_ "WEATHER_API_KEY environment variable is not set.")]
  end.

End WeatherCheck.

(** ['error' in result] *)
Definition is_error_map (result : list (string * pyval)) : bool :=
  match dict_get result "error" with Some _ => true | None => false end.

End Weather.

(** ** The presentation layer's degraded-result check ([send_message]) *)
Module Presentation.

Definition error_markers : list string := ["[FLIGHTS ERROR]"; "[HOTELS ERROR]"].

(** [any(error_marker in assistant_response for error_marker in [...])] *)
Definition shows_warning (assistant_response : string) : bool :=
  existsb (fun error_marker => PyStr.str_in error_marker assistant_response)
          error_markers.

End Presentation.

(** ** Concrete tools and models used in the examples below *)
Module Scenario.

Import Agent.

(** The outside world: how many times the provider and the tools ran. *)
Record outside : Type := mkWorld { llm_calls : nat; tool_runs : nat }.

Definition ran_tool (w : outside) : outside := mkWorld (llm_calls w) (S (tool_runs w)).
Definition ran_llm (w : outside) : outside := mkWorld (S (llm_calls w)) (tool_runs w).

Definition no_args : pyval := PyDict "{}" [].

(** A tool that returns the dict [{'error': text}], and one that raises
    an exception whose message is [text]. *)
Definition returning_error (text : string) : tool outside := fun _ w =>
  (ran_tool w,
   Returned (PyDict ("{'error': '" ++ text ++ "'}") [("error", PyStr_ text)])).
Definition raising (text : string) : tool outside := fun _ w =>
  (ran_tool w, Raised (Exn "Exception" text)).

(** [flights_finder] when [SERPAPI_API_KEY] is not set. *)
Definition flights_no_key : tool outside :=
  returning_error "SERPAPI_API_KEY environment variable is not set.".

(** [hotels_finder] when the search has no properties, and when the
    upstream search raises. *)
Definition hotels_empty : tool outside := fun _ w => (ran_tool w, Returned (PyObj "[]")).
Definition hotels_raising : tool outside := fun _ w =>
  (ran_tool w, Raised (Exn "SerpApiError" "Invalid API key")).

(** [weather_check] too far ahead: an informational dict. *)
Definition weather_info : tool outside := fun _ w =>
  (ran_tool w, Returned (PyDict "{'info': 'n/a'}" [("info", PyStr_ "n/a")])).

Definition flights_call : tool_call := ToolCall "flights_finder" no_args "call_f".
Definition hotels_call : tool_call := ToolCall "hotels_finder" no_args "call_h".
Definition weather_call : tool_call := ToolCall "weather_check" no_args "call_w".
Definition unknown_call : tool_call := ToolCall "car_rental" no_args "call_c".

(** A model that asks for a flight search in every answer. *)
Definition eager_model : chat_model outside := fun _ w =>
  (ran_llm w, Returned (AI ("reply " ++ pretty (llm_calls w)) [flights_call])).

(** A model that asks for a flight search in its first three answers and
    answers in plain text from then on. *)
Definition settling_model : chat_model outside := fun _ w =>
  (ran_llm w,
   Returned (AI ("reply " ++ pretty (llm_calls w))
                (if (llm_calls w <? 3)%nat then [flights_call] else []))).

(** A provider that is down. *)
Definition failing_model : chat_model outside := fun _ w =>
  (ran_llm w, Raised (Exn "APIConnectionError" "Connection error.")).

(** A model that asks once for hotels and weather, then answers. *)
Definition calm_model : chat_model outside := fun _ w =>
  (ran_llm w,
   Returned (AI ("reply " ++ pretty (llm_calls w))
                (if (llm_calls w =? 0)%nat then [hotels_call; weather_call] else []))).

Definition fresh : env outside := mkEnv (mkWorld 0 0) [].

Definition agent_with (llm : chat_model outside) : Agent outside :=
  init flights_no_key hotels_empty weather_info llm.

Definition user_prompt : string := "Plan Sydney to Melbourne".

Definition year : N := 2026.

(** 4 November 2026 as an ordinal, and a forecast service that answers. *)
Definition today : Z := 739924.

Definition forecast_sunny (api_key location date : string) : list (string * pyval) :=
  [("location", PyStr_ location); ("date", PyStr_ date);
   ("condition", PyStr_ "Sunny"); ("source", PyStr_ "WeatherAPI.com")].

Definition weather_on (date : string) : list (string * pyval) :=
  Weather.weather_check Datetime.strptime forecast_sunny (Some "secret") today
    "Melbourne" date.

(** An agent whose counter already stands at the threshold. *)
Definition worn_agent : Agent outside :=
  set_error_count (agent_with calm_model) 3.

Definition asks_hotels_and_weather : ai_message := AI "" [hotels_call; weather_call].

(** The state [graph.invoke] starts from on a fresh thread. *)
Definition start (llm : chat_model outside) : config outside :=
  mkConfig call_tools_llm_node [HumanMessage user_prompt] (agent_with llm) fresh.

(** What a run is observed through: the node it stopped at, the counter,
    the last stored message, how many requests the chat model received and
    how many tool invocations ran. *)
Definition observe (c : config outside)
  : node * nat * option message * nat * nat :=
  (at_node c, _error_count (self_ c), last (messages c),
   length (sent (eff c)), tool_runs (world (eff c))).

Definition observe_result (r : run_result outside)
  : string * (node * nat * option message * nat * nat) :=
  match r with
  | Finished c => ("finished", observe c)
  | Failed x c => ("raised " ++ exn_class x, observe c)
  | GraphRecursionError c => ("GraphRecursionError", observe c)
  end.

End Scenario.

(** ** Well-formed graph configurations *)
Module GraphInv.

Import Agent.

(** [ready c]: a configuration that [invoke_tools] can read, one whose
    last stored message is an assistant message whenever the next node is
    [invoke_tools].  The entry configuration of [graph.invoke] is one. *)
Definition ready {World : Type} (c : config World) : Prop :=
  at_node c = invoke_tools_node →
  ∃ history m, messages c = (history ++ [AIMessage m])%list.

End GraphInv.

(** ** The application front end ([travel_assistant.py]) *)
Module App.

Import PyStr Agent Presentation.

(** [str.lower] on ASCII; other bytes are left as they are. *)
Definition lower_ascii (c : ascii) : ascii :=
  let n := nat_of_ascii c in
  if (65 <=? n)%nat && (n <=? 90)%nat then ascii_of_nat (n + 32) else c.

Fixpoint lower (s : string) : string :=
  match s with
  | EmptyString => EmptyString
  | String c rest => String (lower_ascii c) (lower rest)
  end.

(** A string is falsy exactly when it is empty. *)
Definition nonempty (s : string) : bool :=
  match s with EmptyString => false | String _ _ => true end.

(** *** [AIRPORTS] and the two tables derived from it *)

Record airport : Type := Airport { city : string; iata : string; name : string }.

Definition AIRPORTS : list airport :=
  [Airport "Sydney" "SYD" "Sydney Kingsford Smith";
   Airport "Melbourne" "MEL" "Melbourne Tullamarine";
   Airport "Brisbane" "BNE" "Brisbane";
   Airport "Perth" "PER" "Perth";
   Airport "Adelaide" "ADL" "Adelaide";
   Airport "Gold Coast" "OOL" "Gold Coast";
   Airport "Cairns" "CNS" "Cairns";
   Airport "Canberra" "CBR" "Canberra";
   Airport "Hobart" "HBA" "Hobart";
   Airport "Darwin" "DRW" "Darwin";
   Airport "Auckland" "AKL" "Auckland";
   Airport "Wellington" "WLG" "Wellington";
   Airport "Christchurch" "CHC" "Christchurch";
   Airport "Queenstown" "ZQN" "Queenstown";
   Airport "Dunedin" "DUD" "Dunedin"].

(** The text shown for an airport in the two select boxes. *)
Definition display (a : airport) : string :=
  city a ++ " (" ++ iata a ++ ") - " ++ name a.

Definition airport_options (airports : list airport) : list string :=
  display <$> airports.

(** The dict comprehension: a later airport overwrites an earlier one
    with the same display text. *)
Definition iata_lookup (airports : list airport) : gmap string string :=
  foldl (λ d a, <[display a := iata a]> d) ∅ airports.

(** [next(a['city'] for a in airports if a['iata'] == destination)];
    [None] is [StopIteration]. *)
Definition destination_city_of (airports : list airport) (destination : string)
  : option string :=
  city <$> find (λ a, String.eqb (iata a) destination) airports.

(** *** [extract_location_from_preferences] *)

Definition location_keywords : list string :=
  ["cbd"; "city center"; "downtown"; "beach"; "beachfront"; "airport";
   "near airport"; "city centre"; "central"; "marina"; "waterfront";
   "old town"; "historic district"; "business district"].

Definition extract_location_from_preferences (preferences destination_city : string)
  : string :=
  if negb (nonempty preferences) then destination_city
  else
    let preferences_lower := lower preferences in
    match find (λ keyword, str_in keyword preferences_lower) location_keywords with
    | Some keyword => destination_city ++ " " ++ keyword
    | None => destination_city
    end.

(** *** Dates of the form *)

(** A [datetime.date]. *)
Record date : Type := Date { d_year : Z; d_month : Z; d_day : Z }.

Definition toordinal (d : date) : Z :=
  Datetime._ymd2ord (d_year d) (d_month d) (d_day d).

Fixpoint zeros (n : nat) : string :=
  match n with O => "" | S k => "0" ++ zeros k end.

(** ["%0wd"] of a number that is not negative. *)
Definition zfill (width : nat) (n : Z) : string :=
  let digits := pretty (Z.to_N n) in
  zeros (width - String.length digits) ++ digits.

(** [str(d)], which is [d.isoformat()]. *)
Definition isoformat (d : date) : string :=
  zfill 4 (d_year d) ++ "-" ++ zfill 2 (d_month d) ++ "-" ++ zfill 2 (d_day d).

(** *** The page and its state *)

(** What the page shows besides the chat: [st.warning] with the fixed
    degraded-result text, and [st.error] with a text. *)
Inductive ui_event : Type :=
| st_warning_degraded
| st_error (text : string).

(** One entry of [st.session_state.messages]. *)
Record chat_entry : Type := Entry { role : string; entry_content : string }.

Section WithWorld.

Context {World : Type}.

(** [st.session_state], with the agent's checkpointer (the [MemorySaver]
    made in [Agent.__init__], which keeps the messages of each thread) kept
    beside the agent it belongs to. *)
Record session : Type := mkSession {
  ss_messages : list chat_entry;
  ss_agent : Agent World;
  ss_memory : gmap string (list message);
  ss_thread_id : string
}.

(** What does not depend on the call: the year of the system prompt, the
    node limit of the graph library and the text of its error, and what
    [Agent()] builds. *)
Variable year : N.
Variable recursion_limit : nat.
Variable recursion_text : string.
Variable new_agent : Agent World.

(** [str(e)] of what [graph.invoke] raised, or [None] when it returned. *)
Definition raised_text (r : run_result World) : option string :=
  match r with
  | Finished _ => None
  | Failed x _ => Some (exn_text x)
  | GraphRecursionError _ => Some recursion_text
  end.

(** The [except] branch of [send_message]: the agent is deleted and made
    anew, and with it its checkpointer. *)
Definition send_failed (s : session) (e : env World) (text : string)
  : session * env World * list ui_event * bool :=
  (mkSession (ss_messages s) new_agent ∅ (ss_thread_id s), e,
   [st_error ("Error processing message: " ++ text)], false).

(** [send_message] *)
Definition send_message (s : session) (e : env World) (message_content : string)
  : session * env World * list ui_event * bool :=
  let s := mkSession (ss_messages s ++ [Entry "user" message_content])%list
             (ss_agent s) (ss_memory s) (ss_thread_id s) in
  let messages := [HumanMessage message_content] in
  let stored := default [] (ss_memory s !! ss_thread_id s) in
  match graph_invoke year recursion_limit (ss_agent s) e stored messages with
  | Finished c =>
      match last (Agent.messages c) with
      | Some reply =>
          let assistant_response := content reply in
          (mkSession (ss_messages s ++ [Entry "assistant" assistant_response])%list
             (self_ c) (<[ss_thread_id s := Agent.messages c]> (ss_memory s))
             (ss_thread_id s),
           eff c,
           if shows_warning assistant_response then [st_warning_degraded] else [],
           true)
      | None => send_failed s (eff c) (exn_text IndexError)
      end
  | Failed x c => send_failed s (eff c) (exn_text x)
  | GraphRecursionError c => send_failed s (eff c) recursion_text
  end.

(** The f-string [user_prompt] of [process_initial_query]. *)
Definition user_prompt (trip_type departure destination date_str preferences
    energy_level budget_str budget hotel_preferences : string) : string :=
  "
            Plan a " ++ lower trip_type ++ " trip from " ++ departure ++ " to " ++ destination ++ " " ++ date_str ++ ". Preferences: " ++ preferences ++ ". Energy level: " ++ energy_level ++ "." ++ budget_str ++ "
            1. Suggest a daily travel planner (with activities, rest, and meals).
            2. Recommend local attractions (museums, parks, landmarks) and restaurants.
            3. Use the weather_check tool to provide a multi-day weather forecast and alerts for " ++ destination ++ ". If the forecast is not available, provide a general weather summary based on historical data.
            4. Suggest packing tips based on the weather.
            5. Generate a travel checklist for this trip.
            6. Find best flights (from " ++ departure ++ " to " ++ destination ++ ") and hotels for the trip, using these dates" ++ (if nonempty budget then ", and filter by budget" else "") ++ "." ++ hotel_preferences ++ "
            For each flight option, display all available details: flight number, airline, duration, departure time, arrival time, and price. Do not just show the price.
            If flight or hotel information cannot be retrieved, continue to generate the rest of the plan (planner, attractions, restaurants, weather, packing tips, checklist).
            ".

(** The [try] body of [process_initial_query] up to the prompt it hands to
    [send_message], or the exception raised on the way: [TypeError] for a
    return trip without a check-out date, [StopIteration] (whose text is
    empty) for a destination that is not in the table. *)
Definition plan_prompt (airports : list airport)
    (departure destination : string) (check_in_date : date)
    (check_out_date : option date)
    (preferences energy_level budget trip_type : string) : outcome string :=
  let date_str :=
    if String.eqb trip_type "Return" then
      match check_out_date with
      | Some check_out =>
          let num_days := (toordinal check_out - toordinal check_in_date)%Z in
          Returned ("from " ++ isoformat check_in_date ++ " to " ++ isoformat check_out
                      ++ " (" ++ pretty num_days ++ " days)")
      | None =>
          Raised (Exn "TypeError"
                    "unsupported operand type(s) for -: 'NoneType' and 'datetime.date'")
      end
    else Returned ("departing on " ++ isoformat check_in_date ++ " (one way)") in
  match date_str with
  | Raised x => Raised x
  | Returned date_str =>
      let budget_str :=
        if nonempty budget then
          " The total budget for the trip is " ++ budget ++ " AUD. Please filter flights and hotels to fit within this budget if possible. If the API or tool requires USD, convert the budget from AUD to USD using the current exchange rate."
        else "" in
      match destination_city_of airports destination with
      | None => Raised (Exn "StopIteration" "")
      | Some destination_city =>
          let hotel_location :=
            extract_location_from_preferences preferences destination_city in
          let hotel_preferences :=
            if nonempty preferences then
              " When searching for hotels, use location '" ++ hotel_location
                ++ "' and consider these preferences: " ++ preferences ++ "."
            else "" in
          Returned (user_prompt trip_type departure destination date_str preferences
                      energy_level budget_str budget hotel_preferences)
      end
  end.

(** [process_initial_query].  A date is always truthy, so the guard only
    asks for the dates to be there. *)
Definition process_initial_query (airports : list airport)
    (s : session) (e : env World)
    (departure destination : string) (check_in_date check_out_date : option date)
    (preferences energy_level budget trip_type : string)
  : session * env World * list ui_event * bool :=
  match check_in_date with
  | Some check_in =>
      if nonempty departure && nonempty destination
         && (bool_decide (is_Some check_out_date) || String.eqb trip_type "One Way")
      then
        match plan_prompt airports departure destination check_in check_out_date
                preferences energy_level budget trip_type with
        | Returned prompt => send_message s e prompt
        | Raised x =>
            (s, e, [st_error ("Error generating travel plan: " ++ exn_text x)], false)
        end
      else (s, e, [st_error "Please enter a departure, destination, and valid dates."], false)
  | None => (s, e, [st_error "Please enter a departure, destination, and valid dates."], false)
  end.

End WithWorld.

Arguments session : clear implicits.

End App.

(** ** Decoded JSON, and the Python operations the tools apply to it

    What [response.json()] and the search client hand back: [None], a
    [bool], an [int], a [float] (kept as the text Python prints for it and
    whether it is zero), a [str], a [list] or a [dict] with string keys
    (pairwise distinct).  Each operation below is the Python operation on a
    value of any of these types; where Python raises, the exception is
    [fault op v], the interpreter's exception for that operation on that
    value.  A string is a string of bytes, which for ASCII text are its
    characters. *)
Module PyJson.

#[warnings="-register-all"]
Inductive json : Type :=
| JNull
| JBool (b : bool)
| JInt (z : Z)
| JFloat (shown : string) (is_zero : bool)
| JStr (s : string)
| JList (items : list json)
| JDict (items : list (string * json)).

(** The operations that can raise. *)
Inductive op : Type :=
| op_in (key : string)
| op_key (key : string)
| op_first
| op_get
| op_iter
| op_len
| op_slice
| op_data.

(** Sequencing of steps that return or raise. *)
Definition and_then {A B : Type} (o : outcome A) (k : A → outcome B) : outcome B :=
  match o with
  | Returned a => k a
  | Raised e => Raised e
  end.

#[global] Instance outcome_ret : MRet outcome := λ A a, Returned a.
#[global] Instance outcome_bind : MBind outcome := λ A B k o, and_then o k.

Fixpoint jlookup (items : list (string * json)) (key : string) : option json :=
  match items with
  | [] => None
  | (k, v) :: rest => if String.eqb k key then Some v else jlookup rest key
  end.

(** [bool(v)] *)
Definition truthy (v : json) : bool :=
  match v with
  | JNull => false
  | JBool b => b
  | JInt z => negb (z =? 0)%Z
  | JFloat _ is_zero => negb is_zero
  | JStr s => match s with EmptyString => false | String _ _ => true end
  | JList items => match items with [] => false | _ :: _ => true end
  | JDict items => match items with [] => false | _ :: _ => true end
  end.

Definition is_the_str (key : string) (v : json) : bool :=
  match v with JStr s => String.eqb s key | _ => false end.

Fixpoint chars (s : string) : list json :=
  match s with
  | EmptyString => []
  | String c rest => JStr (String c "") :: chars rest
  end.

Fixpoint take_str (n : nat) (s : string) : string :=
  match n, s with
  | S k, String c rest => String c (take_str k rest)
  | _, _ => ""
  end.

Section Operations.

Variable fault : op → json → exn.

(** [key in v], for a string [key]. *)
Definition contains (key : string) (v : json) : outcome bool :=
  match v with
  | JDict items => Returned (bool_decide (is_Some (jlookup items key)))
  | JList items => Returned (existsb (is_the_str key) items)
  | JStr s => Returned (PyStr.str_in key s)
  | _ => Raised (fault (op_in key) v)
  end.

(** [v[key]], for a string [key]. *)
Definition subscript (key : string) (v : json) : outcome json :=
  match v with
  | JDict items =>
      match jlookup items key with
      | Some x => Returned x
      | None => Raised (fault (op_key key) v)
      end
  | _ => Raised (fault (op_key key) v)
  end.

(** [v[0]] *)
Definition first (v : json) : outcome json :=
  match v with
  | JList (x :: _) => Returned x
  | JStr (String c _) => Returned (JStr (String c ""))
  | _ => Raised (fault op_first v)
  end.

(** [v.get(key, fallback)] *)
Definition get (key : string) (fallback : json) (v : json) : outcome json :=
  match v with
  | JDict items => Returned (default fallback (jlookup items key))
  | _ => Raised (fault op_get v)
  end.

(** The items of [for x in v]. *)
Definition iterate (v : json) : outcome (list json) :=
  match v with
  | JList items => Returned items
  | JDict items => Returned ((λ kv, JStr kv.1) <$> items)
  | JStr s => Returned (chars s)
  | _ => Raised (fault op_iter v)
  end.

(** [len(v)] *)
Definition len (v : json) : outcome Z :=
  match v with
  | JList items => Returned (Z.of_nat (length items))
  | JDict items => Returned (Z.of_nat (length items))
  | JStr s => Returned (Z.of_nat (String.length s))
  | _ => Raised (fault op_len v)
  end.

(** [v[:5]] *)
Definition slice5 (v : json) : outcome json :=
  match v with
  | JList items => Returned (JList (take 5 items))
  | JStr s => Returned (JStr (take_str 5 s))
  | _ => Raised (fault op_slice v)
  end.

End Operations.

Section Printing.

(** [show v]: what Python prints for a list or a dict. *)
Variable show : json → string.

(** [str(v)], which is also what an f-string field prints. *)
Definition text_of (v : json) : string :=
  match v with
  | JNull => "None"
  | JBool true => "True"
  | JBool false => "False"
  | JInt z => pretty z
  | JFloat shown _ => shown
  | JStr s => s
  | JList _ | JDict _ => show v
  end.

(** The value as the executor sees it. *)
Fixpoint to_pyval (v : json) : pyval :=
  match v with
  | JStr s => PyStr_ s
  | JDict items =>
      PyDict (show v)
        ((fix go (l : list (string * json)) : list (string * pyval) :=
            match l with
            | [] => []
            | (k, x) :: rest => (k, to_pyval x) :: go rest
            end) items)
  | _ => PyObj (text_of v)
  end.

End Printing.

End PyJson.

(** ** The weather tool after its date checks: the forecast request *)
Module Forecast.

Import PyJson.

Section Forecast.

Variable fault : op → json → exn.
Variable show : json → string.

(** [fetch api_key location date]: the request to the forecast service,
    the check of its status and the decoding of its body, which give the
    decoded body or raise. *)
Variable fetch : string → string → string → outcome json.

(** The test of the [if]: [and] stops at the first operand that is not
    true, and [data['forecast']] is evaluated once per operand that uses
    it. *)
Definition has_forecast_day (data : json) : outcome bool :=
  has_forecast ← contains fault "forecast" data;
  if has_forecast : bool then
    forecast ← subscript fault "forecast" data;
    has_days ← contains fault "forecastday" forecast;
    if has_days : bool then
      forecast ← subscript fault "forecast" data;
      days ← subscript fault "forecastday" forecast;
      Returned (truthy days)
    else Returned false
  else Returned false.

(** [data['forecast']['forecastday'][0]['day']] *)
Definition first_day (data : json) : outcome json :=
  forecast ← subscript fault "forecast" data;
  days ← subscript fault "forecastday" forecast;
  day0 ← first fault days;
  subscript fault "day" day0.

(** The [try] body once the body of the answer is decoded. *)
Definition read_forecast (location date : string) (data : json)
  : outcome (list (string * pyval)) :=
  ok ← has_forecast_day data;
  if ok : bool then
    day ← first_day data;
    condition ← (c ← subscript fault "condition" day; subscript fault "text" c);
    avg_temp_c ← subscript fault "avgtemp_c" day;
    max_temp_c ← subscript fault "maxtemp_c" day;
    min_temp_c ← subscript fault "mintemp_c" day;
    Returned [("location", PyStr_ location);
              ("date", PyStr_ date);
              ("condition", to_pyval show condition);
              ("avg_temp_c", to_pyval show avg_temp_c);
              ("max_temp_c", to_pyval show max_temp_c);
              ("min_temp_c", to_pyval show min_temp_c);
              ("source", PyStr_ "WeatherAPI.com")]
  else
    Returned [("error", PyStr_ ("No weather data available for " ++ location
                                  ++ " on " ++ date ++ "."))].

(** Lines 55 to 88 of [weather_check]: every exception of the [try] body
    becomes an error dict. *)
Definition forecast_request (api_key location date : string) : list (string * pyval) :=
  match data ← fetch api_key location date; read_forecast location date data with
  | Returned result => result
  | Raised e => [("error", PyStr_ ("Weather API error: " ++ exn_text e))]
  end.

(** The whole tool. *)
Definition weather_check (strptime : string → option Z) (api_key : option string)
    (today : Z) (location date : string) : list (string * pyval) :=
  Weather.weather_check strptime forecast_request api_key today location date.

(** The weather tool of [agent_react.py], which is also [get_weather] of
    [weather_mcp_server.py]: the same request, answered in plain text. *)
Definition weather_text (api_key : option string) (location date : string) : string :=
  match api_key with
  | Some (String k key) =>
      let answer :=
        data ← fetch (String k key) location date;
        ok ← has_forecast_day data;
        if ok : bool then
          day ← first_day data;
          condition ← (c ← subscript fault "condition" day; subscript fault "text" c);
          avgtemp_c ← subscript fault "avgtemp_c" day;
          mintemp_c ← subscript fault "mintemp_c" day;
          maxtemp_c ← subscript fault "maxtemp_c" day;
          Returned (location ++ " on " ++ date ++ ": " ++ text_of show condition ++ ", "
                      ++ text_of show avgtemp_c ++ "°C (min " ++ text_of show mintemp_c
                      ++ "°C, max " ++ text_of show maxtemp_c ++ "°C)")
        else Returned ("No real weather data for " ++ location ++ " on " ++ date ++ ".") in
      match answer with
      | Returned text => text
      | Raised _ =>
          "No real weather data for " ++ location ++ " on " ++ date
            ++ ". Typical weather: mild, partly cloudy."
      end
  | _ => "No weather API key set. Cannot get real weather for " ++ location
           ++ " on " ++ date ++ "."
  end.

End Forecast.

End Forecast.

(** ** The search tools: [flights_finder] and [hotels_finder] *)
Module Search.

Import PyStr PyJson.

(** What [serpapi.search] returns: results with their [data], or, when the
    body of the answer is not JSON, its text, which has no [data]. *)
Inductive response : Type :=
| SerpResults (data : json)
| PlainText (text : string).

(** An [Optional[int]] field, as a value. *)
Definition opt_int (n : option Z) : json :=
  match n with Some z => JInt z | None => JNull end.

Definition opt_str (s : option string) : json :=
  match s with Some s => JStr s | None => JNull end.

Definition error_map (text : string) : json := JDict [("error", JStr text)].

(** *** Validation *)

Definition is_letter (c : ascii) : bool :=
  let n := nat_of_ascii c in
  ((65 <=? n) && (n <=? 90) || (97 <=? n) && (n <=? 122))%nat.

(** [str.isalpha]: not empty, and letters only. *)
Definition isalpha (s : string) : bool :=
  match s with
  | EmptyString => false
  | String _ _ => forallb is_letter (list_ascii_of_string s)
  end.

(** [validate_airport_code] *)
Definition validate_airport_code (code : string) : bool :=
  (String.length code =? 3)%nat && isalpha code.

Section Tools.

Context {World : Type}.

Variable fault : op → json → exn.
Variable show : json → string.

(** [strptime s]: [datetime.strptime(s, '%Y-%m-%d')] as an ordinal, [None]
    on [ValueError]. *)
Variable strptime : string → option Z.

(** [search params]: [serpapi.search(params, ...)], which returns or raises
    (an [Exception]). *)
Variable search : json → World → World * outcome response.

(** [isinstance(e, serpapi.SerpApiError)], for what [search] raises. *)
Variable is_serp_error : exn → bool.

(** [validate_date_format] *)
Definition validate_date_format (date_str : string) : bool :=
  bool_decide (is_Some (strptime date_str)).

(** *** [flights_finder] *)

Record FlightsInput : Type := mkFlightsInput {
  departure_airport : string;
  arrival_airport : string;
  outbound_date : string;
  return_date : option string;
  adults : option Z;
  children : option Z;
  infants_in_seat : option Z;
  infants_on_lap : option Z;
  max_stops : option Z
}.

(** A return date that is there and not empty. *)
Definition given_return_date (params : FlightsInput) : option string :=
  match return_date params with
  | Some (String c rest) => Some (String c rest)
  | _ => None
  end.

Definition flights_params_dict (api_key : string) (params : FlightsInput) : json :=
  JDict ([("api_key", JStr api_key);
          ("engine", JStr "google_flights");
          ("hl", JStr "en");
          ("gl", JStr "us");
          ("departure_id", JStr (upper (departure_airport params)));
          ("arrival_id", JStr (upper (arrival_airport params)));
          ("outbound_date", JStr (outbound_date params));
          ("currency", JStr "USD");
          ("adults", opt_int (adults params));
          ("infants_in_seat", opt_int (infants_in_seat params));
          ("stops", JStr (text_of show (opt_int (max_stops params))));
          ("infants_on_lap", opt_int (infants_on_lap params));
          ("children", opt_int (children params))]
         ++ match given_return_date params with
            | Some d => [("return_date", JStr d)]
            | None => []
            end)%list.

(** The dict built for one entry of [best_flights]. *)
Definition format_option (option : json) : outcome json :=
  flights ← get fault "flights" JNull option;
  first_leg ← (if truthy flights
               then all_legs ← subscript fault "flights" option; first fault all_legs
               else Returned (JDict []));
  airline ← get fault "airline" (JStr "Unknown") first_leg;
  flight_number ← get fault "flight_number" (JStr "Unknown") first_leg;
  departure_time ← (a ← get fault "departure_airport" (JDict []) first_leg;
                    get fault "time" (JStr "Unknown") a);
  arrival_time ← (a ← get fault "arrival_airport" (JDict []) first_leg;
                  get fault "time" (JStr "Unknown") a);
  total_duration ← get fault "total_duration" (JStr "Unknown") option;
  duration ← get fault "duration" total_duration first_leg;
  price ← get fault "price" (JStr "Unknown") option;
  flights ← get fault "flights" JNull option;
  stops ← (if truthy flights
           then all_legs ← subscript fault "flights" option;
                n ← len fault all_legs;
                Returned (JInt (n - 1))
           else Returned (JStr "Unknown"));
  Returned (JDict [("airline", airline);
                   ("flight_number", flight_number);
                   ("departure_time", departure_time);
                   ("arrival_time", arrival_time);
                   ("duration", duration);
                   ("price", JStr ("$" ++ text_of show price ++ " USD"));
                   ("stops", stops)]).

(** The [for] loop over the entries, which stops at the first exception. *)
Fixpoint format_options (options : list json) : outcome (list json) :=
  match options with
  | [] => Returned []
  | option :: rest =>
      formatted ← format_option option;
      others ← format_options rest;
      Returned (formatted :: others)
  end.

(** The [try] body after the search has returned. *)
Definition read_flights (found : response) : outcome json :=
  match found with
  | PlainText _ =>
      Returned (error_map "No flight results found or unexpected API response format.")
  | SerpResults data =>
      has_best ← contains fault "best_flights" data;
      if has_best : bool then
        results ← subscript fault "best_flights" data;
        options ← iterate fault results;
        formatted_results ← format_options options;
        Returned (JList (take 5 formatted_results))
      else
        Returned (error_map "No flight results found or unexpected API response format.")
  end.

(** How one attempt ends: with the value to return, or in one of the two
    [except] clauses. *)
Inductive attempt_end : Type :=
| returns (value : json)
| serp_api_error (e : exn)
| unexpected_error (e : exn).

Definition attempt_once (params_dict : json) (w : World) : World * attempt_end :=
  match search params_dict w with
  | (w', Raised e) =>
      (w', if is_serp_error e then serp_api_error e else unexpected_error e)
  | (w', Returned found) =>
      match read_flights found with
      | Returned value => (w', returns value)
      | Raised e => (w', unexpected_error e)
      end
  end.

Definition max_retries : nat := 3.

(** The [for attempt in range(max_retries)] loop; falling out of it would
    return [None]. *)
Fixpoint retry_loop (attempts : list nat) (params_dict : json) (w : World)
  : World * json :=
  match attempts with
  | [] => (w, JNull)
  | attempt :: rest =>
      match attempt_once params_dict w with
      | (w', returns value) => (w', value)
      | (w', serp_api_error e) =>
          if (attempt <? max_retries - 1)%nat then retry_loop rest params_dict w'
          else (w', error_map ("SerpAPI error: " ++ exn_text e
                                 ++ ". Please try again later."))
      | (w', unexpected_error e) =>
          if (attempt <? max_retries - 1)%nat then retry_loop rest params_dict w'
          else (w', error_map ("Unexpected error: " ++ exn_text e
                                 ++ ". Please try again later."))
      end
  end.

(** [flights_finder]; [api_key] is [os.environ.get('SERPAPI_API_KEY')]. *)
Definition flights_finder (api_key : option string) (params : FlightsInput) (w : World)
  : World * json :=
  match api_key with
  | Some (String k key) =>
      if negb (validate_airport_code (departure_airport params)) then
        (w, error_map ("Invalid departure airport code: " ++ departure_airport params
                         ++ ". Must be a valid 3-letter IATA code."))
      else if negb (validate_airport_code (arrival_airport params)) then
        (w, error_map ("Invalid arrival airport code: " ++ arrival_airport params
                         ++ ". Must be a valid 3-letter IATA code."))
      else if negb (validate_date_format (outbound_date params)) then
        (w, error_map ("Invalid outbound date format: " ++ outbound_date params
                         ++ ". Must be in YYYY-MM-DD format."))
      else
        match given_return_date params with
        | Some d =>
            if negb (validate_date_format d) then
              (w, error_map ("Invalid return date format: " ++ d
                               ++ ". Must be in YYYY-MM-DD format."))
            else retry_loop (seq 0 max_retries)
                   (flights_params_dict (String k key) params) w
        | None =>
            retry_loop (seq 0 max_retries) (flights_params_dict (String k key) params) w
        end
  | _ => (w, error_map "SERPAPI_API_KEY environment variable is not set.")
  end.

(** *** [hotels_finder] *)

(** The [sort_by] field: a string, [None], or the default, the integer 8. *)
Inductive sort_field : Type :=
| sort_default
| sort_text (s : string)
| sort_missing.

Record HotelsInput : Type := mkHotelsInput {
  q : string;
  check_in_date : string;
  check_out_date : string;
  sort_by : sort_field;
  h_adults : option Z;
  h_children : option Z;
  rooms : option Z;
  hotel_class : option string
}.

(** [int(s)] for a string: the integer, or [None] on [ValueError]. *)
Variable py_int : string → option Z.

(** [int(sort_by)], with 8 when it raises. *)
Definition sort_code (field : sort_field) : Z :=
  match field with
  | sort_default => 8
  | sort_text s => default 8%Z (py_int s)
  | sort_missing => 8
  end.

Definition hotels_params_dict (api_key : option string) (params : HotelsInput) : json :=
  JDict [("api_key", opt_str api_key);
         ("engine", JStr "google_hotels");
         ("hl", JStr "en");
         ("gl", JStr "us");
         ("q", JStr (q params));
         ("check_in_date", JStr (check_in_date params));
         ("check_out_date", JStr (check_out_date params));
         ("currency", JStr "USD");
         ("adults", opt_int (h_adults params));
         ("children", opt_int (h_children params));
         ("rooms", opt_int (rooms params));
         ("sort_by", JInt (sort_code (sort_by params)));
         ("hotel_class", opt_str (hotel_class params))].

(** The [try] body after the search has returned. *)
Definition read_hotels (found : response) : outcome json :=
  results ← match found with
            | SerpResults data => Returned data
            | PlainText text => Raised (fault op_data (JStr text))
            end;
  has_properties ← contains fault "properties" results;
  if has_properties : bool then
    properties ← subscript fault "properties" results;
    slice5 fault properties
  else Returned (JList []).

(** [hotels_finder]: what the [try] body raises is raised again. *)
Definition hotels_finder (api_key : option string) (params : HotelsInput) (w : World)
  : World * outcome json :=
  match search (hotels_params_dict api_key params) w with
  | (w', Raised e) => (w', Raised e)
  | (w', Returned found) => (w', read_hotels found)
  end.

End Tools.

End Search.

(** ** Notions used to state what the search tools do *)
Module SearchAux.

Import PyJson Search.


(** The dict [format_option] builds has these seven keys, in this order,
    and a text under ['price']. *)
Definition flight_summary (v : json) : Prop :=
  ∃ airline flight_number departure_time arrival_time duration price stops,
    v = JDict [("airline", airline);
               ("flight_number", flight_number);
               ("departure_time", departure_time);
               ("arrival_time", arrival_time);
               ("duration", duration);
               ("price", JStr price);
               ("stops", stops)].

(** What [flights_finder] can return: an error dict, or at most five
    flight summaries. *)
Definition flights_value (v : json) : Prop :=
  (∃ text, v = error_map text)
  ∨ (∃ summaries, v = JList summaries ∧ (length summaries <= 5)%nat
                  ∧ Forall flight_summary summaries).

(** What [hotels_finder] can return: at most five items of a list, or at
    most five characters of a text. *)
Definition hotels_value (v : json) : Prop :=
  (∃ items, v = JList items ∧ (length items <= 5)%nat)
  ∨ (∃ text, v = JStr text ∧ (String.length text <= 5)%nat).

(** A tool's outcome as the executor receives it. *)
Definition as_tool_result (show : json → string) (o : outcome json) : outcome pyval :=
  match o with
  | Returned v => Returned (to_pyval show v)
  | Raised e => Raised e
  end.

Section WithWorld.

Context {World : Type}.
Variable fault : op → json → exn.
Variable show : json → string.
Variable search : json → World → World * outcome response.
Variable is_serp_error : exn → bool.

(** The world after [n] attempts in a row. *)
Fixpoint after_attempts (n : nat) (params_dict : json) (w : World) : World :=
  match n with
  | O => w
  | S k => after_attempts k params_dict
             (attempt_once fault show search is_serp_error params_dict w).1
  end.

(** How the attempt after [n] earlier ones ends. *)
Definition nth_attempt (n : nat) (params_dict : json) (w : World) : attempt_end :=
  (attempt_once fault show search is_serp_error params_dict
     (after_attempts n params_dict w)).2.

Definition attempt_returned (a : attempt_end) : bool :=
  match a with returns _ => true | _ => false end.

End WithWorld.

End SearchAux.

(** ** Concrete sessions and inputs used in the examples below *)
Module Stage.

Import Agent App Scenario.

(** A model that answers at once, without asking for a tool. *)
Definition direct_model : chat_model outside := fun _ w =>
  (ran_llm w, Returned (AI ("reply " ++ pretty (llm_calls w)) [])).

Definition session_with (llm : chat_model outside) : session outside :=
  mkSession [] (agent_with llm) ∅ "thread-1".

Definition send_to (llm : chat_model outside) (text : string)
  : session outside * env outside * list ui_event * bool :=
  send_message Scenario.year 25 "Recursion limit of 25 reached" (agent_with llm)
    (session_with llm) fresh text.

Definition plan_for (s : session outside) (departure destination : string)
    (check_in check_out : option date) (trip_type : string)
  : session outside * env outside * list ui_event * bool :=
  process_initial_query Scenario.year 25 "Recursion limit of 25 reached"
    (agent_with direct_model) AIRPORTS s fresh departure destination
    check_in check_out "prefer the CBD" "Relaxed" "" trip_type.

End Stage.

(** ** Concrete services used in the examples below *)
Module Services.

Import PyJson Search SearchAux Scenario.

Definition plain_fault : op → json → exn := fun _ _ => Exn "TypeError" "unexpected value".

Definition plain_show : json → string := fun _ => "[...]".

(** An answer of the forecast service with one day in it. *)
Definition one_day_forecast : json :=
  JDict [("location", JDict [("name", JStr "Melbourne")]);
         ("forecast",
          JDict [("forecastday",
                  JList [JDict [("date", JStr "2026-11-10");
                                ("day",
                                 JDict [("maxtemp_c", JFloat "24.1" false);
                                        ("mintemp_c", JFloat "12.3" false);
                                        ("avgtemp_c", JFloat "18.0" false);
                                        ("condition",
                                         JDict [("text", JStr "Sunny");
                                                ("code", JInt 1000)])])]])])].

Definition fetch_one_day (api_key location date : string) : outcome json :=
  Returned one_day_forecast.

(** A search answer with one flight of two legs. *)
Definition one_flight : json :=
  JDict [("best_flights",
          JList [JDict [("flights",
                         JList [JDict [("airline", JStr "Qantas");
                                       ("flight_number", JStr "QF 401");
                                       ("departure_airport",
                                        JDict [("id", JStr "SYD");
                                               ("time", JStr "2026-11-05 07:00")]);
                                       ("arrival_airport",
                                        JDict [("id", JStr "MEL");
                                               ("time", JStr "2026-11-05 08:35")]);
                                       ("duration", JInt 95)];
                                JDict [("airline", JStr "Qantas")]]);
                        ("total_duration", JInt 95);
                        ("price", JInt 129)]])].

(** A search that raises a client error on its first two calls and answers
    on the third, and one that is down. *)
Definition search_third_time (params_dict : json) (w : outside)
  : outside * outcome response :=
  (ran_tool w,
   if (tool_runs w <? 2)%nat then Raised (Exn "HTTPConnectionError" "Connection refused")
   else Returned (SerpResults one_flight)).

Definition search_down (params_dict : json) (w : outside) : outside * outcome response :=
  (ran_tool w, Raised (Exn "HTTPConnectionError" "Connection refused")).

Definition search_nothing (params_dict : json) (w : outside) : outside * outcome response :=
  (ran_tool w, Returned (SerpResults (JDict [("search_metadata", JDict [])]))).

Definition client_error (e : exn) : bool := String.eqb (exn_class e) "HTTPConnectionError".

Definition sydney_to_melbourne : FlightsInput :=
  mkFlightsInput "syd" "mel" "2026-11-05" None (Some 1%Z) (Some 0%Z) (Some 0%Z)
    (Some 0%Z) (Some 1%Z).

Definition melbourne_hotels : HotelsInput :=
  mkHotelsInput "Melbourne cbd" "2026-11-05" "2026-11-10" (sort_text "cheapest")
    (Some 2%Z) (Some 0%Z) (Some 1%Z) None.

Definition no_int (s : string) : option Z := None.

Definition find_flights (search : json → outside → outside * outcome response)
  : outside * json :=
  flights_finder plain_fault plain_show Datetime.strptime search client_error
    (Some "secret") sydney_to_melbourne (mkWorld 0 0).

Definition find_hotels (search : json → outside → outside * outcome response)
  : outside * outcome json :=
  hotels_finder plain_fault search no_int (Some "secret") melbourne_hotels (mkWorld 0 0).

(** A registry whose flight and hotel tools are these searches, whatever the
    arguments of the call. *)
Definition agent_searching (search : json → outside → outside * outcome response)
  : Agent.Agent outside :=
  Agent.init
    (fun _ w => let r := flights_finder plain_fault plain_show Datetime.strptime search
                           client_error (Some "secret") sydney_to_melbourne w in
                (r.1, Returned (to_pyval plain_show r.2)))
    (fun _ w => let r := hotels_finder plain_fault search no_int (Some "secret")
                           melbourne_hotels w in
                (r.1, as_tool_result plain_show r.2))
    weather_info eager_model.

End Services.

(** * Properties *)

(** ** Substrings of a concatenation *)
Module StringFacts.

Import PyStr.

Lemma has_char_app c s t : has_char c (s ++ t) = has_char c s || has_char c t.
Proof.
  induction s as [|a s IH]; [reflexivity|].
  change (String a s ++ t) with (String a (s ++ t)).
  cbn [has_char]. by rewrite IH, orb_assoc.
Qed.

(** A prefix of [t] is made of characters of [t]. *)
Lemma startswith_has_char t : ∀ p c,
  startswith t p = true → has_char c p = true → has_char c t = true.
Proof.
  induction t as [|b t IH]; intros [|a p] c; simpl; try done.
  intros [Hab Hrest]%andb_prop [Hca|Hcp]%orb_prop.
  - apply Ascii.eqb_eq in Hab as ->. by rewrite Hca.
  - by rewrite (IH p c Hrest Hcp), orb_true_r.
Qed.

(** So is a substring. *)
Lemma str_in_has_char p c t :
  str_in p t = true → has_char c p = true → has_char c t = true.
Proof.
  induction t as [|b t IH]; simpl.
  - intros Hp Hc. exact (startswith_has_char "" p c Hp Hc).
  - intros [Hhere|Hlater]%orb_prop Hc.
    + exact (startswith_has_char (String b t) p c Hhere Hc).
    + by rewrite (IH Hlater Hc), orb_true_r.
Qed.

(** A pattern whose last character does not occur in [t] cannot start in
    [s] and end in [t]. *)
Lemma startswith_app_closed c t : has_char c t = false →
  ∀ s p0, startswith (s ++ t) (p0 ++ String c "") = startswith s (p0 ++ String c "").
Proof.
  intros Hc. induction s as [|a s IH]; intros p0.
  - change ("" ++ t) with t.
    destruct (startswith t (p0 ++ String c "")) eqn:Hst.
    + assert (has_char c t = true) as Hin; [|congruence].
      apply (startswith_has_char t _ c Hst).
      rewrite has_char_app. cbn [has_char]. by rewrite Ascii.eqb_refl, orb_true_r.
    + by destruct p0.
  - change (String a s ++ t) with (String a (s ++ t)).
    destruct p0 as [|b p0].
    + reflexivity.
    + change (String b p0 ++ String c "") with (String b (p0 ++ String c "")).
      cbn [startswith]. by rewrite IH.
Qed.

Lemma str_in_app_closed c t p0 : has_char c t = false →
  ∀ s, str_in (p0 ++ String c "") (s ++ t) = str_in (p0 ++ String c "") s.
Proof.
  intros Hc. induction s as [|a s IH].
  - change ("" ++ t) with t.
    destruct (str_in (p0 ++ String c "") t) eqn:Hin.
    + assert (has_char c t = true) as Hin'; [|congruence].
      apply (str_in_has_char _ c t Hin).
      rewrite has_char_app. cbn [has_char]. by rewrite Ascii.eqb_refl, orb_true_r.
    + by destruct p0.
  - change (String a s ++ t) with (String a (s ++ t)).
    cbn [str_in]. rewrite IH.
    change (String a (s ++ t)) with (String a s ++ t).
    by rewrite (startswith_app_closed c t Hc).
Qed.

End StringFacts.

(** ** The tool executor *)
Module ExecutorFacts.

Import PyStr Agent.

Section WithWorld.

Context {World : Type}.
Implicit Types (self : Agent World) (w : World) (tc : tool_call).

Lemma run_tool_call_eta self tc w :
  run_tool_call self tc w = (world_after self tc w, result_of self tc w, failed_of self tc w).
Proof.
  unfold world_after, result_of, failed_of.
  by destruct (run_tool_call self tc w) as [[? ?] ?].
Qed.

(** Every result message answers its own request. *)
Lemma result_of_shape self tc w :
  ∃ text, result_of self tc w = ToolMessage (tc_id tc) (tc_name tc) text.
Proof.
  unfold result_of, run_tool_call.
  destruct (call_tool self tc w) as [w' [result|e]]; simpl.
  - destruct (error_entry result); simpl; eauto.
  - eauto.
Qed.

(** The accumulators only grow at their end. *)
Lemma tool_loop_acc self calls : ∀ w results failed,
  tool_loop self calls w results failed =
  let '(w', rs, fs) := tool_loop self calls w [] [] in
  (w', (results ++ rs)%list, (failed ++ fs)%list).
Proof.
  induction calls as [|tc calls IH]; intros w results failed; simpl.
  - by rewrite !app_nil_r.
  - rewrite run_tool_call_eta.
    rewrite (IH _ (results ++ _)%list).
    rewrite (IH _ [result_of self tc w]).
    destruct (tool_loop self calls (world_after self tc w) [] []) as [[w' rs] fs].
    rewrite <- !app_assoc. simpl.
    f_equal. destruct (failed_of self tc w); simpl; [by rewrite <- app_assoc | done].
Qed.

Lemma execute_tools_nil self w : execute_tools self [] w = (w, [], []).
Proof. reflexivity. Qed.

Lemma execute_tools_cons self tc calls w :
  execute_tools self (tc :: calls) w =
  let '(w', rs, fs) := execute_tools self calls (world_after self tc w) in
  (w', result_of self tc w :: rs,
   match failed_of self tc w with Some name => name :: fs | None => fs end).
Proof.
  unfold execute_tools. simpl. rewrite run_tool_call_eta.
  rewrite tool_loop_acc.
  destruct (tool_loop self calls (world_after self tc w) [] []) as [[w' rs] fs].
  simpl. by destruct (failed_of self tc w).
Qed.

(** The results line up with the requests. *)
Lemma execute_tools_shape self calls : ∀ w,
  Forall2 (λ tc msg, ∃ text, msg = ToolMessage (tc_id tc) (tc_name tc) text)
          calls (execute_tools self calls w).1.2.
Proof.
  induction calls as [|tc calls IH]; intros w.
  - constructor.
  - rewrite execute_tools_cons. specialize (IH (world_after self tc w)).
    destruct (execute_tools self calls (world_after self tc w)) as [[w' rs] fs].
    simpl in *. constructor; [apply result_of_shape | exact IH].
Qed.

(** C2.  For any list of tool-call requests, the executor's loop builds
    one result message per request, in request order, and the i-th
    message is a tool message that carries the identifier and the name of
    the i-th request, whether that call succeeded or failed. *)
Theorem execute_tools_one_result_per_request self calls w :
  let results := (execute_tools self calls w).1.2 in
  length results = length calls
  ∧ Forall2 (λ tc msg, ∃ text, msg = ToolMessage (tc_id tc) (tc_name tc) text)
            calls results
  ∧ ∀ i tc, calls !! i = Some tc →
      ∃ text, results !! i = Some (ToolMessage (tc_id tc) (tc_name tc) text).
Proof.
  simpl. pose proof (execute_tools_shape self calls w) as HF.
  split; [symmetry; eapply Forall2_length; exact HF|].
  split; [exact HF|].
  intros i tc Hi.
  destruct (Forall2_lookup_l _ _ _ _ _ HF Hi) as (msg & Hmsg & text & ->).
  eauto.
Qed.

(** What one iteration does, by the three ways a call can end. *)
Lemma run_tool_call_raised self tc w w' e :
  call_tool self tc w = (w', Raised e) →
  run_tool_call self tc w =
    (w', ToolMessage (tc_id tc) (tc_name tc)
           (_format_error_message (tc_name tc) (exn_text e)),
     Some (tc_name tc)).
Proof. intros H. unfold run_tool_call. by rewrite H. Qed.

Lemma run_tool_call_error_dict self tc w w' result err :
  call_tool self tc w = (w', Returned result) →
  error_entry result = Some err →
  run_tool_call self tc w =
    (w', ToolMessage (tc_id tc) (tc_name tc)
           (_format_error_message (tc_name tc) (py_str err)),
     Some (tc_name tc)).
Proof. intros H He. unfold run_tool_call. by rewrite H, He. Qed.

Lemma run_tool_call_success self tc w w' result :
  call_tool self tc w = (w', Returned result) →
  error_entry result = None →
  run_tool_call self tc w =
    (w', ToolMessage (tc_id tc) (tc_name tc) (py_str result), None).
Proof. intros H He. unfold run_tool_call. by rewrite H, He. Qed.

(** C4.  (1) Whenever an iteration records its call as failed, the
    content of the result message is the text
    "[NAME ERROR] err. The assistant will continue with available
        information." with NAME the upper-cased tool name and err the error
    text.  (2) A call whose tool returns the dict [{'error': X}] and a
    call, under the same tool name, whose tool raises an exception with
    message [X] get result messages with the same content, which is that
    text with err = X. *)
Theorem uniform_error_format :
  (∀ self tc w name,
     failed_of self tc w = Some name →
     ∃ err, content (result_of self tc w) =
            "[" ++ upper (tc_name tc) ++ " ERROR] " ++ err
              ++ ". The assistant will continue with available information.")
  ∧ (∀ self1 self2 tc1 tc2 w1 w2 w1' w2' shown cls X,
       tc_name tc1 = tc_name tc2 →
       call_tool self1 tc1 w1 = (w1', Returned (PyDict shown [("error", PyStr_ X)])) →
       call_tool self2 tc2 w2 = (w2', Raised (Exn cls X)) →
       content (result_of self1 tc1 w1) = content (result_of self2 tc2 w2)
       ∧ content (result_of self1 tc1 w1) =
           "[" ++ upper (tc_name tc1) ++ " ERROR] " ++ X
             ++ ". The assistant will continue with available information.").
Proof.
  split.
  - intros self tc w name. unfold failed_of, result_of, run_tool_call.
    destruct (call_tool self tc w) as [w' [result|e]]; simpl.
    + destruct (error_entry result) as [err|]; simpl; [|done].
      intros _. by exists (py_str err).
    + intros _. by exists (exn_text e).
  - intros self1 self2 tc1 tc2 w1 w2 w1' w2' shown cls X Hname H1 H2.
    unfold result_of.
    rewrite (run_tool_call_error_dict _ _ _ _ _ (PyStr_ X) H1 eq_refl).
    rewrite (run_tool_call_raised _ _ _ _ _ H2). simpl.
    by rewrite Hname.
Qed.

(** C8.  A request whose tool name is not in the registry is answered by
    a tool message in the uniform error format (error text
    "Tool 'name' not found"), the name is recorded as failed, the
    outside world is not touched, and the iteration is the one a
    registered tool raising that same error would have had; an exception
    that leaves the pass is never this one: it is one the chat model
    raised on the fallback request. *)
Theorem unknown_tool_is_a_failed_call self tc w :
  _tools self !! tc_name tc = None →
  run_tool_call self tc w =
    (w, ToolMessage (tc_id tc) (tc_name tc)
          ("[" ++ upper (tc_name tc) ++ " ERROR] "
             ++ ("Tool '" ++ tc_name tc ++ "' not found")
             ++ ". The assistant will continue with available information."),
     Some (tc_name tc))
  ∧ (∀ self' (t : tool World),
       _tools self' !! tc_name tc = Some t →
       t (tc_args tc) w
         = (w, Raised (ToolExecutionError ("Tool '" ++ tc_name tc ++ "' not found"))) →
       run_tool_call self' tc w = run_tool_call self tc w)
  ∧ (∀ year history m e x,
       tc ∈ ai_tool_calls m →
       (invoke_tools year self (history ++ [AIMessage m])%list e).2 = Raised x →
       ∃ original failed w',
         (_tools_llm self
            [SystemMessage (TOOLS_SYSTEM_PROMPT year);
             HumanMessage (fallback_prompt original failed)] w').2 = Raised x).
Proof.
  intros Hnone.
  assert (Hcall : call_tool self tc w
            = (w, Raised (ToolExecutionError ("Tool '" ++ tc_name tc ++ "' not found")))).
  { unfold call_tool, tool in *. by rewrite Hnone. }
  split; [exact (run_tool_call_raised _ _ _ _ _ Hcall)|].
  split.
  - intros self' t Ht Hraise.
    rewrite (run_tool_call_raised _ _ _ _ _ Hcall).
    apply run_tool_call_raised. unfold call_tool, tool in *. by rewrite Ht.
  - intros year history m e x _. unfold invoke_tools.
    rewrite last_snoc.
    destruct (execute_tools self (ai_tool_calls m) (world e)) as [[w1 results] failed].
    set (self1 := match failed with [] => self | _ :: _ => _ end).
    assert (Hllm : _tools_llm self1 = _tools_llm self) by (subst self1; by destruct failed).
    destruct (_max_retries self1 <=? _error_count self1)%nat; [|simpl; intros ?; discriminate].
    destruct (history ++ [AIMessage m])%list as [|first rest] eqn:Hh; [by destruct history|].
    unfold _generate_fallback_plan, llm_invoke. rewrite Hllm. simpl.
    destruct (_tools_llm self _ w1) as [w2 [final|x']] eqn:Hl; simpl; [done|].
    intros [= ->]. exists (content first), failed, w1. by rewrite Hl.
Qed.

(** No result message is a system message. *)
Lemma execute_tools_no_system self calls w :
  Forall (λ msg, is_system msg = false) (execute_tools self calls w).1.2.
Proof.
  pose proof (execute_tools_shape self calls w) as HF.
  induction HF as [|tc msg calls' rs (text & ->) _ IH]; by constructor.
Qed.

(** A pass whose calls all succeed records no failed tool. *)
Lemma execute_tools_all_succeed self calls : ∀ w,
  (∀ tc w0, tc ∈ calls → failed_of self tc w0 = None) →
  (execute_tools self calls w).2 = [].
Proof.
  induction calls as [|tc calls IH]; intros w Hok; [done|].
  rewrite execute_tools_cons.
  specialize (IH (world_after self tc w) (λ tc' w0 Hin, Hok tc' w0 (list_elem_of_further _ _ _ Hin))).
  destruct (execute_tools self calls (world_after self tc w)) as [[w' rs] fs].
  simpl in *. rewrite (Hok tc w (list_elem_of_here _ _)). exact IH.
Qed.

End WithWorld.

End ExecutorFacts.

(** ** The agent loop *)
Module LoopFacts.

Import PyStr Agent.

Section WithWorld.

Context {World : Type}.
Implicit Types (self : Agent World) (e : env World) (c : config World).

(** [invoke_tools] on a state that ends with an assistant message. *)
Lemma invoke_tools_unfold year self history m e :
  invoke_tools year self (history ++ [AIMessage m])%list e =
  let '(w, results, failed_tools) := execute_tools self (ai_tool_calls m) (world e) in
  let self1 := counted self failed_tools in
  let e1 := mkEnv w (sent e) in
  if (_max_retries self1 <=? _error_count self1)%nat then
    match _generate_fallback_plan year self1
            (content (first_of history (AIMessage m))) failed_tools e1 with
    | (e', Returned final_message) => (self1, e', Returned [AIMessage final_message])
    | (e', Raised x) => (self1, e', Raised x)
    end
  else (self1, e1, Returned results).
Proof.
  unfold invoke_tools. rewrite last_snoc.
  destruct (execute_tools self (ai_tool_calls m) (world e)) as [[w results] failed].
  fold (counted self failed).
  destruct (_max_retries (counted self failed) <=? _error_count (counted self failed))%nat;
    [|done].
  unfold first_of. by destruct history.
Qed.

Lemma counted_max_retries self failed :
  _max_retries (counted self failed) = _max_retries self.
Proof. by destruct failed. Qed.

Lemma counted_tools_llm self failed :
  _tools_llm (counted self failed) = _tools_llm self.
Proof. by destruct failed. Qed.

Lemma counted_error_count self failed :
  _error_count (counted self failed)
  = (_error_count self + match failed with [] => 0 | _ :: _ => 1 end)%nat.
Proof. destruct failed; simpl; lia. Qed.

(** The agent after a pass is [counted], whatever the node returns. *)
Lemma invoke_tools_agent year self history m e :
  (invoke_tools year self (history ++ [AIMessage m])%list e).1.1
  = counted self (execute_tools self (ai_tool_calls m) (world e)).2.
Proof.
  rewrite invoke_tools_unfold.
  destruct (execute_tools self (ai_tool_calls m) (world e)) as [[w results] failed].
  simpl.
  destruct (_max_retries (counted self failed) <=? _error_count (counted self failed))%nat;
    [|done].
  by destruct (_generate_fallback_plan _ _ _ _ _) as [e' [final|x]].
Qed.

(** Below the threshold the node returns the executor's results as they
    are. *)
Lemma invoke_tools_returns_results year self history m e :
  let '(w, results, failed_tools) := execute_tools self (ai_tool_calls m) (world e) in
  (_error_count (counted self failed_tools) < _max_retries self)%nat →
  invoke_tools year self (history ++ [AIMessage m])%list e
  = (counted self failed_tools, mkEnv w (sent e), Returned results).
Proof.
  rewrite invoke_tools_unfold.
  destruct (execute_tools self (ai_tool_calls m) (world e)) as [[w results] failed].
  simpl. intros Hlt. rewrite counted_max_retries.
  by destruct (Nat.leb_spec (_max_retries self) (_error_count (counted self failed))); [lia|].
Qed.

(** C3.  A tool-execution pass adds exactly 1 to [_error_count] when its
    loop recorded at least one failed call, however many it recorded,
    and leaves the agent as it was when it recorded none. *)
Theorem failing_pass_counts_once year self history m e :
  let failed_tools := (execute_tools self (ai_tool_calls m) (world e)).2 in
  let self' := (invoke_tools year self (history ++ [AIMessage m])%list e).1.1 in
  match failed_tools with
  | [] => self' = self
  | _ :: _ => _error_count self' = (_error_count self + 1)%nat
  end.
Proof.
  simpl. rewrite invoke_tools_agent.
  by destruct (execute_tools self (ai_tool_calls m) (world e)).2.
Qed.

(** The counter never goes down and the threshold never moves, on any
    state. *)
Lemma invoke_tools_monotone year self msgs e :
  let self' := (invoke_tools year self msgs e).1.1 in
  _max_retries self' = _max_retries self
  ∧ (_error_count self <= _error_count self')%nat
  ∧ _tools_llm self' = _tools_llm self.
Proof.
  simpl. unfold invoke_tools.
  destruct (last msgs) as [[c|c|m|i n c]|]; simpl; try done.
  destruct (execute_tools self (ai_tool_calls m) (world e)) as [[w results] failed].
  fold (counted self failed).
  assert (H : _max_retries (counted self failed) = _max_retries self
              ∧ (_error_count self <= _error_count (counted self failed))%nat
              ∧ _tools_llm (counted self failed) = _tools_llm self).
  { rewrite counted_max_retries, counted_error_count, counted_tools_llm. repeat split; lia. }
  destruct (_max_retries (counted self failed) <=? _error_count (counted self failed))%nat;
    [|exact H].
  destruct msgs as [|first rest]; [exact H|].
  by destruct (_generate_fallback_plan _ _ _ _ _) as [e' [final|x]].
Qed.

Lemma threshold_persists year self self' :
  threshold_reached self → lives_on year self self' → threshold_reached self'.
Proof.
  intros Hreached Hlives. induction Hlives as [|self' msgs e _ IH]; [done|].
  destruct (invoke_tools_monotone year self' msgs e) as (Hmax & Hcount & _).
  simpl in *. unfold threshold_reached in *. lia.
Qed.

(** C9.  Once [_error_count] has reached [_max_retries], then after any
    number of further passes of the same instance the threshold test still
    holds, and a pass is the fallback generation and nothing else: its
    outcome is the chat model's answer to the fallback request, returned as the
    only message of the update, or the exception the chat model raised on
    it; the tool results are dropped.  When every call of the pass
    succeeds, the list of failed tools in that request is empty. *)
Theorem fallback_after_threshold year self self' history m e :
  threshold_reached self →
  lives_on year self self' →
  let failed_tools := (execute_tools self' (ai_tool_calls m) (world e)).2 in
  let w := (execute_tools self' (ai_tool_calls m) (world e)).1.1 in
  let request :=
    [SystemMessage (TOOLS_SYSTEM_PROMPT year);
     HumanMessage (fallback_prompt (content (first_of history (AIMessage m))) failed_tools)] in
  let pass := invoke_tools year self' (history ++ [AIMessage m])%list e in
  threshold_reached self'
  ∧ threshold_reached pass.1.1
  ∧ pass.1.2 = (llm_invoke self' request (mkEnv w (sent e))).1
  ∧ pass.2 = match (llm_invoke self' request (mkEnv w (sent e))).2 with
             | Returned final_message => Returned [AIMessage final_message]
             | Raised x => Raised x
             end
  ∧ ((∀ tc w0, tc ∈ ai_tool_calls m → failed_of self' tc w0 = None) →
     failed_tools = [] ∧ join ", " failed_tools = "").
Proof.
  intros Hreached Hlives. simpl.
  pose proof (threshold_persists _ _ _ Hreached Hlives) as Hnow.
  split; [exact Hnow|].
  split; [exact (threshold_persists _ _ _ Hreached
                  (lives_on_pass year self self' (history ++ [AIMessage m])%list e Hlives))|].
  rewrite invoke_tools_unfold.
  destruct (execute_tools self' (ai_tool_calls m) (world e)) as [[w results] failed] eqn:Hex.
  simpl.
  assert (Hstill : (_max_retries (counted self' failed) <=? _error_count (counted self' failed))%nat = true).
  { apply Nat.leb_le. rewrite counted_max_retries, counted_error_count.
    unfold threshold_reached in Hnow. lia. }
  rewrite Hstill. unfold _generate_fallback_plan, llm_invoke.
  rewrite counted_tools_llm.
  assert (Hnone : (∀ tc w0, tc ∈ ai_tool_calls m → failed_of self' tc w0 = None) →
                  failed = [] ∧ join ", " failed = "").
  { intros Hok.
    pose proof (ExecutorFacts.execute_tools_all_succeed self' _ (world e) Hok) as Hnil.
    rewrite Hex in Hnil. simpl in Hnil. by subst failed. }
  cbn [world sent].
  match goal with
  | |- context [_tools_llm self' ?request w] =>
      destruct (_tools_llm self' request w) as [w' [final|x]]
  end; simpl; repeat split; try done; apply Hnone; assumption.
Qed.

(** The graph has no edge from [invoke_tools] to [END]: whatever the pass
    returned, tool results or the fallback answer, the next node is
    [call_tools_llm]. *)
Lemma invoke_tools_leads_back_to_the_model year c c' :
  at_node c = invoke_tools_node →
  step year c = Next c' →
  at_node c' = call_tools_llm_node.
Proof.
  intros Hnode. unfold step. rewrite Hnode.
  destruct (invoke_tools year (self_ c) (messages c) (eff c)) as [[self' e'] [update|x]];
    [|done].
  by intros [= <-].
Qed.

(** C6.  A failing provider call ends [graph.invoke] with that very
    exception.  (1) In [call_tools_llm]: the stored messages and the agent,
    hence its failure counter, are as before the call, and exactly one
    request was handed to the chat model.  (2) In the fallback call of
    [invoke_tools]: the stored messages are as before the pass, exactly one
    request was handed to the chat model, and the failure counter is the one
    the tool failures of the pass alone account for. *)
Theorem provider_failure_propagates year limit :
  (∀ c w' x,
     at_node c = call_tools_llm_node →
     _tools_llm (self_ c) (SystemMessage (TOOLS_SYSTEM_PROMPT year) :: messages c)
                (world (eff c)) = (w', Raised x) →
     run year (S limit) c =
       Failed x (mkConfig call_tools_llm_node (messages c) (self_ c)
                   (mkEnv w' (sent (eff c)
                                ++ [SystemMessage (TOOLS_SYSTEM_PROMPT year) :: messages c])%list)))
  ∧ (∀ c history m w w' results failed_tools x,
       at_node c = invoke_tools_node →
       messages c = (history ++ [AIMessage m])%list →
       execute_tools (self_ c) (ai_tool_calls m) (world (eff c)) = (w, results, failed_tools) →
       threshold_reached (counted (self_ c) failed_tools) →
       _tools_llm (self_ c)
         [SystemMessage (TOOLS_SYSTEM_PROMPT year);
          HumanMessage (fallback_prompt (content (first_of history (AIMessage m))) failed_tools)]
         w = (w', Raised x) →
       run year (S limit) c =
         Failed x (mkConfig invoke_tools_node (messages c) (counted (self_ c) failed_tools)
                     (mkEnv w' (sent (eff c)
                        ++ [[SystemMessage (TOOLS_SYSTEM_PROMPT year);
                             HumanMessage (fallback_prompt
                                             (content (first_of history (AIMessage m)))
                                             failed_tools)]])%list))).
Proof.
  split.
  - intros c w' x Hnode Hllm. simpl. rewrite Hnode.
    unfold step. rewrite Hnode. unfold call_tools_llm, llm_invoke. simpl.
    by rewrite Hllm.
  - intros c history m w w' results failed x Hnode Hmsgs Hex Hreached Hllm.
    simpl. rewrite Hnode. unfold step. rewrite Hnode, Hmsgs.
    rewrite invoke_tools_unfold, Hex. simpl.
    apply Nat.leb_le in Hreached. rewrite Hreached.
    unfold _generate_fallback_plan, llm_invoke. rewrite counted_tools_llm.
    cbn [world sent]. by rewrite Hllm.
Qed.

(** What one pass adds: requests that open with the system prompt, and an
    update without system messages. *)
Lemma invoke_tools_adds year self msgs e :
  let pass := invoke_tools year self msgs e in
  (∃ requests, sent pass.1.2 = (sent e ++ requests)%list
               ∧ Forall (opens_with_system_prompt year) requests)
  ∧ ∀ update, pass.2 = Returned update → Forall (λ msg, is_system msg = false) update.
Proof.
  simpl. unfold invoke_tools.
  assert (Hsame : ∃ requests, sent e = (sent e ++ requests)%list
                              ∧ Forall (opens_with_system_prompt year) requests).
  { exists []. by rewrite app_nil_r. }
  destruct (last msgs) as [[c|c|m|i n c]|]; simpl; try (split; [exact Hsame|done]).
  pose proof (ExecutorFacts.execute_tools_no_system self (ai_tool_calls m) (world e)) as Hres.
  destruct (execute_tools self (ai_tool_calls m) (world e)) as [[w results] failed].
  simpl in Hres. fold (counted self failed).
  destruct (_max_retries (counted self failed) <=? _error_count (counted self failed))%nat.
  - destruct msgs as [|first rest]; simpl; [split; [exact Hsame|done]|].
    unfold _generate_fallback_plan, llm_invoke. cbn [world sent].
    match goal with
    | |- context [_tools_llm ?a ?request w] =>
        destruct (_tools_llm a request w) as [w' [final|x]]
    end; simpl.
    + split; [eexists; split; [reflexivity|by repeat constructor]|].
      intros update [= <-]. by repeat constructor.
    + split; [eexists; split; [reflexivity|by repeat constructor]|done].
  - simpl. split; [exact Hsame|]. by intros update [= <-].
Qed.

(** One node of the graph, whether it returns or raises. *)
Lemma step_adds year c :
  let c' := match step year c with Next c' => c' | Crash _ c' => c' end in
  ∃ added requests,
    messages c' = (messages c ++ added)%list
    ∧ Forall (λ msg, is_system msg = false) added
    ∧ sent (eff c') = (sent (eff c) ++ requests)%list
    ∧ Forall (opens_with_system_prompt year) requests.
Proof.
  simpl. unfold step. destruct (at_node c).
  - unfold call_tools_llm, llm_invoke.
    destruct (_tools_llm (self_ c) _ (world (eff c))) as [w' [final|x]]; simpl.
    + exists [AIMessage final], [(SystemMessage (TOOLS_SYSTEM_PROMPT year) :: messages c)].
      destruct (exists_action _) as [[|]|x]; simpl; by repeat constructor.
    + exists [], [(SystemMessage (TOOLS_SYSTEM_PROMPT year) :: messages c)].
      rewrite app_nil_r. by repeat constructor.
  - destruct (invoke_tools_adds year (self_ c) (messages c) (eff c)) as [(requests & Hs & Ho) Hupd].
    simpl in *.
    destruct (invoke_tools year (self_ c) (messages c) (eff c)) as [[self' e'] [update|x]];
      simpl in *.
    + exists update, requests. by repeat split; [apply Hupd|..].
    + exists [], requests. rewrite app_nil_r. by repeat split.
  - exists [], []. rewrite !app_nil_r. by repeat split.
Qed.

(** C7.  Whatever [graph.invoke] ends with (a final state, an exception
    or the step limit), and so in every state a run passes through, the stored
    messages are the initial ones followed by messages none of which is a
    system message, while every request handed to the chat model during the
    run opens with the system prompt. *)
Theorem system_prompt_is_never_stored year limit c :
  let c' := final_config (run year limit c) in
  ∃ added requests,
    messages c' = (messages c ++ added)%list
    ∧ Forall (λ msg, is_system msg = false) added
    ∧ sent (eff c') = (sent (eff c) ++ requests)%list
    ∧ Forall (opens_with_system_prompt year) requests.
Proof.
  simpl. revert c. induction limit as [|limit IH]; intros c.
  - exists [], []. rewrite !app_nil_r.
    simpl. by destruct (at_node c).
  - assert (Hend : ∃ added requests,
               messages c = (messages c ++ added)%list
               ∧ Forall (λ msg, is_system msg = false) added
               ∧ sent (eff c) = (sent (eff c) ++ requests)%list
               ∧ Forall (opens_with_system_prompt year) requests).
    { exists [], []. by rewrite !app_nil_r. }
    pose proof (step_adds year c) as Hstep. simpl in Hstep.
    simpl. destruct (at_node c) eqn:Hnode; [| |exact Hend].
    all: destruct (step year c) as [c1|x c1]; simpl; [|exact Hstep].
    all: destruct Hstep as (a1 & r1 & Hm1 & Ha1 & Hs1 & Hr1).
    all: destruct (IH c1) as (a2 & r2 & Hm2 & Ha2 & Hs2 & Hr2).
    all: exists (a1 ++ a2)%list, (r1 ++ r2)%list.
    all: rewrite Hm2, Hm1, Hs2, Hs1, !app_assoc.
    all: repeat split; by apply Forall_app.
Qed.

End WithWorld.

End LoopFacts.

(** ** The loop on concrete tools and models *)
Module Runs.

Import PyStr Agent Scenario.

(** An ordinary turn: the model asks for hotels and weather, both calls
    succeed, the model answers, and the run ends with that answer. *)
Example calm_turn :
  observe_result (run year 25 (start calm_model))
  = ("finished", (END, 0, Some (AIMessage (AI "reply 1" [])), 2, 2)).
Proof. vm_compute; reflexivity. Qed.

(** One failing and one successful call in a pass: two result messages,
    [flights_finder] recorded as failed, the counter at 1, and the loop back
    at the model. *)
Example one_failure_one_success :
  let self := init (raising "API key missing") hotels_empty weather_info eager_model in
  let calls := [flights_call; hotels_call] in
  execute_tools self calls (mkWorld 0 0)
  = (mkWorld 0 2,
     [ToolMessage "call_f" "flights_finder"
        "[FLIGHTS_FINDER ERROR] API key missing. The assistant will continue with available information.";
      ToolMessage "call_h" "hotels_finder" "[]"],
     ["flights_finder"])
  ∧ observe <$> step_next year
      (mkConfig invoke_tools_node [HumanMessage user_prompt; AIMessage (AI "" calls)] self fresh)
    = Some (call_tools_llm_node, 1,
            Some (ToolMessage "call_h" "hotels_finder" "[]"), 0, 2).
Proof. split; vm_compute; reflexivity. Qed.

(** C1.  With a flight search that fails in three successive passes and a
    model that answers in plain text from its fourth answer on, the third
    pass sends the fallback request and stores its answer ("reply 3", no
    tool calls), and the run is then at [call_tools_llm], not at [END]: the
    chat model is called a fifth time and the run finishes with that answer
    ("reply 4").  With a model that keeps asking for the flight search, the
    node after the fallback is again [call_tools_llm], the node after that
    is [invoke_tools], the tool runs a fourth time, and the run only stops
    at the step limit. *)
Example fallback_is_followed_by_another_model_call :
  (observe <$> nsteps year 6 (start settling_model)
     = Some (call_tools_llm_node, 3, Some (AIMessage (AI "reply 3" [])), 4, 3)
   ∧ observe_result (run year 25 (start settling_model))
     = ("finished", (END, 3, Some (AIMessage (AI "reply 4" [])), 5, 3)))
  ∧ (observe <$> nsteps year 6 (start eager_model)
       = Some (call_tools_llm_node, 3, Some (AIMessage (AI "reply 3" [flights_call])), 4, 3)
     ∧ observe <$> nsteps year 7 (start eager_model)
       = Some (invoke_tools_node, 3, Some (AIMessage (AI "reply 4" [flights_call])), 5, 3)
     ∧ observe <$> nsteps year 8 (start eager_model)
       = Some (call_tools_llm_node, 4, Some (AIMessage (AI "reply 5" [flights_call])), 6, 4)
     ∧ fst (observe_result (run year 25 (start eager_model))) = "GraphRecursionError").
Proof. repeat split; vm_compute; reflexivity. Qed.

End Runs.

(** ** The degraded-result check against the executor's error strings *)
Module PresentationFacts.

Import PyStr Agent Presentation.

(** The registry of [Agent.__init__] has exactly the three tool names. *)
Lemma registered_names {World} (f h w : tool World) (llm : chat_model World) name :
  is_Some (_tools (init f h w llm) !! name) →
  name ∈ ["flights_finder"; "hotels_finder"; "weather_check"].
Proof.
  intros [t Ht]. unfold init in Ht. cbn [_tools] in Ht.
  apply elem_of_list_to_map_2 in Ht.
  rewrite !elem_of_cons in Ht. rewrite !elem_of_cons.
  destruct Ht as [[= -> _]|[[= -> _]|[[= -> _]|Ht]]]; auto.
  by apply elem_of_nil in Ht.
Qed.

Lemma marker_only_from_error_text name err marker :
  name ∈ ["flights_finder"; "hotels_finder"; "weather_check"] →
  marker ∈ error_markers →
  str_in marker (_format_error_message name err) = str_in marker err.
Proof.
  unfold error_markers. rewrite !elem_of_cons.
  intros [->|[->|[->|Hn]]] [->|[->|Hm]];
    try (by apply elem_of_nil in Hn); try (by apply elem_of_nil in Hm).
  all: unfold _format_error_message.
  all: etransitivity;
    [ exact (eq_refl : _ = str_in _
               (err ++ ". The assistant will continue with available information."))
    | first [ exact (StringFacts.str_in_app_closed "]"
                       ". The assistant will continue with available information."
                       "[FLIGHTS ERROR" eq_refl err)
            | exact (StringFacts.str_in_app_closed "]"
                       ". The assistant will continue with available information."
                       "[HOTELS ERROR" eq_refl err) ] ].
Qed.

(** C10, as amended.  For a registered tool name, the formatted error
    string contains a marker of the degraded-result check exactly when the
    error text itself contains it: the bracketed tag the executor writes is
    never one of the two markers.  So the check fires on a formatted error
    string exactly when it fires on the bare error text. *)
Theorem executor_tag_is_not_a_marker {World} (f h w : tool World)
    (llm : chat_model World) name err :
  is_Some (_tools (init f h w llm) !! name) →
  (∀ marker, marker ∈ error_markers →
     str_in marker (_format_error_message name err) = str_in marker err)
  ∧ shows_warning (_format_error_message name err) = shows_warning err.
Proof.
  intros Hreg%registered_names.
  assert (H : ∀ marker, marker ∈ error_markers →
            str_in marker (_format_error_message name err) = str_in marker err).
  { intros marker Hm. by apply marker_only_from_error_text. }
  split; [exact H|].
  unfold shows_warning, error_markers in *. cbn [existsb].
  rewrite !H; [done|..]; rewrite !elem_of_cons; auto.
Qed.

End PresentationFacts.

(** ** The date checks of the weather tool *)
Module WeatherFacts.

Import Weather.
Local Open Scope Z_scope.

(** C5, as amended.  With the API key set and a date that parses: a date
    before today gives the error dict
    [{'error': 'Cannot check weather for a past date.'}]; a date more than
    14 days ahead gives a dict with the single key ['info'], which is not an
    error dict; any other date goes on to the forecast request.  No path
    raises. *)
Theorem weather_date_validation (strptime : string → option Z)
    (fetch_forecast : string → string → string → list (string * pyval))
    k key today location date d :
  strptime date = Some d →
  let result :=
    weather_check strptime fetch_forecast (Some (String k key)) today location date in
  (d < today →
     result = [("error", PyStr_ "Cannot check weather for a past date.")]
     ∧ is_error_map result = true)
  ∧ (today + 14 < d →
       result = [("info", PyStr_ ("Real-time weather forecast is not available for "
                   ++ date ++ " in " ++ location
                   ++ ". Here is a general weather summary for this time of year based on historical data and LLM knowledge."))]
       ∧ is_error_map result = false)
  ∧ (today <= d <= today + 14 →
       result = fetch_forecast (String k key) location date).
Proof.
  intros Hparse. simpl. unfold weather_check. rewrite Hparse.
  repeat split.
  - destruct (Z.ltb_spec (d - today) 0); [done|lia].
  - destruct (Z.ltb_spec (d - today) 0); [done|lia].
  - destruct (Z.ltb_spec (d - today) 0); [lia|].
    destruct (Z.ltb_spec 14 (d - today)); [done|lia].
  - destruct (Z.ltb_spec (d - today) 0); [lia|].
    destruct (Z.ltb_spec 14 (d - today)); [done|lia].
  - destruct (Z.ltb_spec (d - today) 0); [lia|].
    destruct (Z.ltb_spec 14 (d - today)); [lia|done].
Qed.

End WeatherFacts.

(** ** The theorems at concrete inputs *)
Module Instances.

Import PyStr Agent Presentation Scenario.

(** C5 as stated fails at a past date: the tool returns an error dict, not
    an informational one. *)
Lemma past_date_is_an_error_map :
  Datetime.strptime "2020-01-01" = Some 737425%Z
  ∧ weather_on "2020-01-01" = [("error", PyStr_ "Cannot check weather for a past date.")]
  ∧ Weather.is_error_map (weather_on "2020-01-01") = true.
Proof. repeat split; vm_compute; reflexivity. Qed.

Lemma weather_date_validation_witness :
  (weather_on "2020-01-01" = [("error", PyStr_ "Cannot check weather for a past date.")]
   ∧ Weather.is_error_map (weather_on "2020-01-01") = true)
  ∧ Weather.is_error_map (weather_on "2026-12-25") = false
  ∧ weather_on "2026-11-10" = forecast_sunny "secret" "Melbourne" "2026-11-10".
Proof.
  split; [|split].
  - apply (WeatherFacts.weather_date_validation Datetime.strptime forecast_sunny
             "s" "ecret" today "Melbourne" "2020-01-01" 737425%Z);
      [vm_compute; reflexivity | unfold today; lia].
  - apply (WeatherFacts.weather_date_validation Datetime.strptime forecast_sunny
             "s" "ecret" today "Melbourne" "2026-12-25" 739975%Z);
      [vm_compute; reflexivity | unfold today; lia].
  - apply (WeatherFacts.weather_date_validation Datetime.strptime forecast_sunny
             "s" "ecret" today "Melbourne" "2026-11-10" 739930%Z);
      [vm_compute; reflexivity | unfold today; lia].
Defined.

(** C10 as stated fails at an error text that quotes a marker: the
    formatted string contains it, and the check fires. *)
Lemma marker_inside_error_text_is_detected :
  is_Some (_tools (agent_with eager_model) !! "flights_finder")
  ∧ str_in "[FLIGHTS ERROR]"
      (_format_error_message "flights_finder"
         "SerpAPI error: upstream said [FLIGHTS ERROR]. Please try again later.") = true
  ∧ shows_warning
      (_format_error_message "flights_finder"
         "SerpAPI error: upstream said [FLIGHTS ERROR]. Please try again later.") = true.
Proof. split; [by eexists|split; vm_compute; reflexivity]. Qed.

Lemma executor_tag_is_not_a_marker_witness :
  shows_warning
    (_format_error_message "flights_finder"
       "SERPAPI_API_KEY environment variable is not set.") = false.
Proof.
  destruct (PresentationFacts.executor_tag_is_not_a_marker
              flights_no_key hotels_empty weather_info eager_model
              "flights_finder" "SERPAPI_API_KEY environment variable is not set.")
    as [_ ->]; [by eexists|].
  vm_compute; reflexivity.
Defined.

Lemma uniform_error_format_witness :
  content (result_of (init (returning_error "X") hotels_empty weather_info eager_model)
             flights_call (mkWorld 0 0))
  = content (result_of (init (raising "X") hotels_empty weather_info eager_model)
               flights_call (mkWorld 0 0))
  ∧ content (result_of (init (returning_error "X") hotels_empty weather_info eager_model)
               flights_call (mkWorld 0 0))
    = "[FLIGHTS_FINDER ERROR] X. The assistant will continue with available information.".
Proof.
  destruct (@ExecutorFacts.uniform_error_format outside) as [_ H].
  apply (H _ _ flights_call flights_call (mkWorld 0 0) (mkWorld 0 0)
           (mkWorld 0 1) (mkWorld 0 1) "{'error': 'X'}" "Exception" "X");
    vm_compute; reflexivity.
Defined.

Lemma unknown_tool_is_a_failed_call_witness :
  run_tool_call (agent_with eager_model) unknown_call (mkWorld 0 0)
  = (mkWorld 0 0,
     ToolMessage "call_c" "car_rental"
       "[CAR_RENTAL ERROR] Tool 'car_rental' not found. The assistant will continue with available information.",
     Some "car_rental").
Proof.
  destruct (ExecutorFacts.unknown_tool_is_a_failed_call
              (agent_with eager_model) unknown_call (mkWorld 0 0)) as [H _];
    [vm_compute; reflexivity | exact H].
Defined.

Lemma fallback_after_threshold_witness :
  threshold_reached worn_agent
  ∧ (invoke_tools year worn_agent
       ([HumanMessage user_prompt] ++ [AIMessage asks_hotels_and_weather])%list fresh).2
    = Returned [AIMessage (AI "reply 0" [hotels_call; weather_call])]
  ∧ sent (invoke_tools year worn_agent
            ([HumanMessage user_prompt] ++ [AIMessage asks_hotels_and_weather])%list fresh).1.2
    = [[SystemMessage (TOOLS_SYSTEM_PROMPT year);
        HumanMessage (fallback_prompt user_prompt [])]].
Proof.
  assert (Hreached : threshold_reached worn_agent) by (vm_compute; lia).
  split; [exact Hreached|].
  destruct (LoopFacts.fallback_after_threshold year worn_agent worn_agent
              [HumanMessage user_prompt] asks_hotels_and_weather fresh
              Hreached (lives_on_now year worn_agent)) as (_ & _ & -> & -> & _).
  split; vm_compute; reflexivity.
Defined.

Lemma provider_failure_propagates_witness :
  observe_result (run year 25 (start failing_model))
  = ("raised APIConnectionError",
     (call_tools_llm_node, 0%nat, Some (HumanMessage user_prompt), 1%nat, 0%nat)).
Proof.
  destruct (@LoopFacts.provider_failure_propagates outside year 24) as [H _].
  rewrite (H (start failing_model) (mkWorld 1 0)
             (Exn "APIConnectionError" "Connection error.") eq_refl eq_refl).
  vm_compute; reflexivity.
Defined.

(** Two failing calls in one pass: the counter goes from 0 to 1, and the
    pass returns the three result messages. *)
Example two_failures_count_once :
  let pass := invoke_tools year (init flights_no_key hotels_raising weather_info eager_model)
                ([HumanMessage user_prompt]
                   ++ [AIMessage (AI "" [flights_call; hotels_call; weather_call])])%list
                fresh in
  _error_count pass.1.1 = 1%nat
  ∧ pass.2 = Returned
      [ToolMessage "call_f" "flights_finder"
         "[FLIGHTS_FINDER ERROR] SERPAPI_API_KEY environment variable is not set.. The assistant will continue with available information.";
       ToolMessage "call_h" "hotels_finder"
         "[HOTELS_FINDER ERROR] Invalid API key. The assistant will continue with available information.";
       ToolMessage "call_w" "weather_check" "{'info': 'n/a'}"].
Proof. split; vm_compute; reflexivity. Qed.

End Instances.

(** ** Substrings, by decomposition *)
Module SubstringFacts.

Import PyStr.

Lemma app_empty_r (s : string) : s ++ "" = s.
Proof.
  induction s as [|a s IH]; [reflexivity|].
  change (String a s ++ "") with (String a (s ++ "")). by rewrite IH.
Qed.

Lemma app_assoc_str (s t u : string) : (s ++ t) ++ u = s ++ t ++ u.
Proof.
  induction s as [|a s IH]; [reflexivity|].
  change ((String a s ++ t) ++ u) with (String a ((s ++ t) ++ u)).
  change (String a s ++ t ++ u) with (String a (s ++ t ++ u)).
  by rewrite IH.
Qed.

Lemma startswith_spec p : ∀ s,
  startswith s p = true ↔ ∃ post, s = p ++ post.
Proof.
  induction p as [|a p IH]; intros s.
  - split; [intros _; by exists s|done].
  - destruct s as [|b s]; cbn [startswith].
    + split; [done|]. by intros [post Hpost].
    + rewrite andb_true_iff, Ascii.eqb_eq, IH. split.
      * intros [-> [post ->]]. by exists post.
      * intros [post Hpost].
        change (String a p ++ post) with (String a (p ++ post)) in Hpost.
        injection Hpost as -> ->. eauto.
Qed.

(** [needle in hay] holds exactly when [hay] is some text, then [needle],
    then some text. *)
Lemma str_in_spec needle : ∀ hay,
  str_in needle hay = true ↔ ∃ pre post, hay = pre ++ needle ++ post.
Proof.
  induction hay as [|a hay IH]; cbn [str_in].
  - rewrite startswith_spec. split.
    + intros [post Hpost]. by exists "", post.
    + intros (pre & post & Hh). destruct pre; [by exists post|done].
  - rewrite orb_true_iff, startswith_spec, IH. split.
    + intros [[post Hpost]|(pre & post & ->)].
      * by exists "", post.
      * by exists (String a pre), post.
    + intros (pre & post & Hh). destruct pre as [|b pre].
      * left. by exists post.
      * right. change (String b pre ++ needle ++ post)
                 with (String b (pre ++ needle ++ post)) in Hh.
        injection Hh as -> ->. eauto.
Qed.

Lemma str_in_middle pre needle post : str_in needle (pre ++ needle ++ post) = true.
Proof. apply str_in_spec. eauto. Qed.

Lemma str_in_trans a b c :
  str_in a b = true → str_in b c = true → str_in a c = true.
Proof.
  rewrite !str_in_spec. intros (p1 & q1 & ->) (p2 & q2 & ->).
  exists (p2 ++ p1), (q1 ++ q2). by rewrite !app_assoc_str.
Qed.

Lemma str_in_self s : str_in s s = true.
Proof.
  apply str_in_spec. exists "", "". by rewrite app_empty_r.
Qed.

Lemma str_in_app_l needle s t : str_in needle s = true → str_in needle (s ++ t) = true.
Proof.
  rewrite !str_in_spec. intros (pre & post & ->).
  exists pre, (post ++ t). by rewrite !app_assoc_str.
Qed.

Lemma str_in_app_r needle s t : str_in needle t = true → str_in needle (s ++ t) = true.
Proof.
  rewrite !str_in_spec. intros (pre & post & ->).
  exists (s ++ pre), post. by rewrite !app_assoc_str.
Qed.

Lemma app_inv_head_str (p s t : string) : p ++ s = p ++ t → s = t.
Proof.
  induction p as [|a p IH]; [done|].
  change (String a p ++ s) with (String a (p ++ s)).
  change (String a p ++ t) with (String a (p ++ t)).
  intros [= H]. by apply IH.
Qed.

Lemma length_app_str (s t : string) :
  String.length (s ++ t) = (String.length s + String.length t)%nat.
Proof.
  induction s as [|a s IH]; [reflexivity|].
  change (String a s ++ t) with (String a (s ++ t)). simpl. by rewrite IH.
Qed.

End SubstringFacts.

(** ** More on the tool executor *)
Module ExecutorMore.

Import PyStr Agent.

Section WithWorld.

Context {World : Type}.
Implicit Types (self : Agent World) (w : World) (tc : tool_call).

(** A recorded failure is recorded under the request's own name. *)
Lemma failed_of_name self tc w name :
  failed_of self tc w = Some name → name = tc_name tc.
Proof.
  unfold failed_of, run_tool_call.
  destruct (call_tool self tc w) as [w' [result|e]]; simpl.
  - destruct (error_entry result); simpl; [by intros [= <-]|done].
  - by intros [= <-].
Qed.

(** X1.  [failed_tools] is a sublist of the requested tool names: every
    entry is the name of a request, entries come in request order, and a
    request contributes at most one entry (so a name requested twice can be
    listed twice, and never more often than it was requested). *)
Theorem failed_tools_sublist_of_requests self calls w :
  (execute_tools self calls w).2 `sublist_of` (tc_name <$> calls).
Proof.
  revert w. induction calls as [|tc calls IH]; intros w.
  - constructor.
  - rewrite ExecutorFacts.execute_tools_cons. specialize (IH (world_after self tc w)).
    destruct (execute_tools self calls (world_after self tc w)) as [[w' rs] fs].
    simpl in *. destruct (failed_of self tc w) as [name|] eqn:Hf.
    + apply failed_of_name in Hf as ->. by constructor.
    + by constructor.
Qed.

(** X2.  A pass in which no requested name is registered leaves the outside
    world as it was, answers every request with the "not found" error
    message, and records every requested name as failed, in order. *)
Theorem unknown_tools_touch_nothing self calls w :
  (∀ tc, tc ∈ calls → _tools self !! tc_name tc = None) →
  execute_tools self calls w =
    (w,
     (λ tc, ToolMessage (tc_id tc) (tc_name tc)
              (_format_error_message (tc_name tc)
                 ("Tool '" ++ tc_name tc ++ "' not found"))) <$> calls,
     tc_name <$> calls).
Proof.
  induction calls as [|tc calls IH]; intros Hnone; [done|].
  rewrite ExecutorFacts.execute_tools_cons.
  assert (Hcall : run_tool_call self tc w =
            (w, ToolMessage (tc_id tc) (tc_name tc)
                  (_format_error_message (tc_name tc)
                     ("Tool '" ++ tc_name tc ++ "' not found")),
             Some (tc_name tc))).
  { apply (ExecutorFacts.run_tool_call_raised self tc w w
             (ToolExecutionError ("Tool '" ++ tc_name tc ++ "' not found"))).
    unfold call_tool, tool in *. by rewrite (Hnone tc (list_elem_of_here _ _)). }
  unfold world_after, result_of, failed_of. rewrite Hcall. simpl.
  rewrite IH; [done|].
  intros tc' Hin. apply Hnone. by apply list_elem_of_further.
Qed.

Lemma format_error_split name err :
  _format_error_message name err
  = ("[" ++ upper name ++ " ERROR] ") ++ err
      ++ ". The assistant will continue with available information.".
Proof. unfold _format_error_message. by rewrite !SubstringFacts.app_assoc_str. Qed.

(** X3.  The result message of a failed call carries the failure's own text
    unchanged: the text of the exception the tool raised, or the printed
    value under the ['error'] key of the dict it returned. *)
Theorem failed_call_keeps_error_text self tc w :
  (∀ w' e, call_tool self tc w = (w', Raised e) →
     str_in (exn_text e) (content (result_of self tc w)) = true)
  ∧ (∀ w' result err, call_tool self tc w = (w', Returned result) →
       error_entry result = Some err →
       str_in (py_str err) (content (result_of self tc w)) = true).
Proof.
  split.
  - intros w' e Hcall. unfold result_of.
    rewrite (ExecutorFacts.run_tool_call_raised _ _ _ _ _ Hcall). cbn [fst snd content].
    rewrite format_error_split. apply SubstringFacts.str_in_middle.
  - intros w' result err Hcall Herr. unfold result_of.
    rewrite (ExecutorFacts.run_tool_call_error_dict _ _ _ _ _ _ Hcall Herr).
    cbn [fst snd content]. rewrite format_error_split. apply SubstringFacts.str_in_middle.
Qed.

End WithWorld.

End ExecutorMore.

(** ** More on the agent loop *)
Module GraphFacts.

Import PyStr Agent GraphInv.

Section WithWorld.

Context {World : Type}.
Implicit Types (self : Agent World) (e : env World) (c : config World).

(** What a pass may change of the agent: only the counter, by 0 or 1. *)
Lemma invoke_tools_attributes year self msgs e :
  let self' := (invoke_tools year self msgs e).1.1 in
  _tools self' = _tools self
  ∧ _tools_llm self' = _tools_llm self
  ∧ _max_retries self' = _max_retries self
  ∧ (_error_count self <= _error_count self' <= _error_count self + 1)%nat.
Proof.
  simpl. unfold invoke_tools.
  destruct (last msgs) as [[c|c|m|i n c]|]; simpl; try (repeat split; lia).
  destruct (execute_tools self (ai_tool_calls m) (world e)) as [[w results] failed].
  fold (counted self failed).
  assert (H : _tools (counted self failed) = _tools self
              ∧ _tools_llm (counted self failed) = _tools_llm self
              ∧ _max_retries (counted self failed) = _max_retries self
              ∧ (_error_count self <= _error_count (counted self failed)
                 <= _error_count self + 1)%nat).
  { destruct failed; simpl; repeat split; lia. }
  destruct (_max_retries (counted self failed) <=? _error_count (counted self failed))%nat;
    [|exact H].
  destruct msgs as [|first rest]; [exact H|].
  by destruct (_generate_fallback_plan _ _ _ _ _) as [e' [final|x]].
Qed.

Lemma step_attributes year c :
  let c' := match step year c with Next c' => c' | Crash _ c' => c' end in
  _tools (self_ c') = _tools (self_ c)
  ∧ _tools_llm (self_ c') = _tools_llm (self_ c)
  ∧ _max_retries (self_ c') = _max_retries (self_ c)
  ∧ (_error_count (self_ c) <= _error_count (self_ c') <= _error_count (self_ c) + 1)%nat.
Proof.
  simpl. unfold step. destruct (at_node c).
  - destruct (call_tools_llm year (self_ c) (messages c) (eff c)) as [e' [update|x]];
      [destruct (exists_action _) as [[|]|x]|]; simpl; repeat split; lia.
  - pose proof (invoke_tools_attributes year (self_ c) (messages c) (eff c)) as H.
    simpl in H.
    by destruct (invoke_tools year (self_ c) (messages c) (eff c)) as [[self' e'] [update|x]].
  - repeat split; lia.
Qed.

Lemma run_attributes year limit c :
  let c' := final_config (run year limit c) in
  _tools (self_ c') = _tools (self_ c)
  ∧ _tools_llm (self_ c') = _tools_llm (self_ c)
  ∧ _max_retries (self_ c') = _max_retries (self_ c)
  ∧ (_error_count (self_ c) <= _error_count (self_ c') <= _error_count (self_ c) + limit)%nat.
Proof.
  simpl. revert c. induction limit as [|limit IH]; intros c.
  - simpl. destruct (at_node c); simpl; repeat split; lia.
  - pose proof (step_attributes year c) as Hstep. simpl in Hstep.
    simpl. destruct (at_node c) eqn:Hnode; [| |simpl; repeat split; lia].
    all: destruct (step year c) as [c1|x c1]; simpl;
      [|destruct Hstep as (? & ? & ? & ?); repeat split; [done..|lia|lia]].
    all: destruct Hstep as (Ht & Hl & Hm & Hc).
    all: destruct (IH c1) as (Ht' & Hl' & Hm' & Hc').
    all: rewrite Ht', Hl', Hm', Ht, Hl, Hm; repeat split; lia.
Qed.

(** X4.  Over a whole run, whatever way it ends, the registry, the bound
    chat model and the threshold of the agent are unchanged, and the failure
    counter never goes down and grows by at most one per node run. *)
Theorem run_keeps_agent_attributes year limit c :
  let c' := final_config (run year limit c) in
  _tools (self_ c') = _tools (self_ c)
  ∧ _tools_llm (self_ c') = _tools_llm (self_ c)
  ∧ _max_retries (self_ c') = _max_retries (self_ c)
  ∧ (_error_count (self_ c) <= _error_count (self_ c') <= _error_count (self_ c) + limit)%nat.
Proof. exact (run_attributes year limit c). Qed.

(** The step that reaches [END]. *)
Lemma step_to_end year c c' :
  at_node c ≠ END →
  step year c = Next c' →
  at_node c' = END →
  ∃ m w',
    _tools_llm (self_ c) (SystemMessage (TOOLS_SYSTEM_PROMPT year) :: messages c)
      (world (eff c)) = (w', Returned m)
    ∧ ai_tool_calls m = []
    ∧ c' = mkConfig END (messages c ++ [AIMessage m])%list (self_ c)
             (mkEnv w' (sent (eff c)
                          ++ [SystemMessage (TOOLS_SYSTEM_PROMPT year) :: messages c])%list).
Proof.
  intros Hnot. unfold step. destruct (at_node c) eqn:Hnode; [| |done].
  - unfold call_tools_llm, llm_invoke. simpl.
    destruct (_tools_llm (self_ c) _ (world (eff c))) as [w' [m|x]] eqn:Hllm; [|done].
    unfold exists_action. rewrite last_snoc.
    destruct (ai_tool_calls m) as [|tc tcs] eqn:Hcalls.
    + intros [= <-] _. by exists m, w'.
    + by intros [= <-].
  - destruct (invoke_tools year (self_ c) (messages c) (eff c)) as [[self' e'] [update|x]];
      [|done].
    by intros [= <-].
Qed.

Lemma finished_run_shape year limit c c' :
  at_node c ≠ END →
  run year limit c = Finished c' →
  ∃ history m w w',
    messages c' = (history ++ [AIMessage m])%list
    ∧ ai_tool_calls m = []
    ∧ last (sent (eff c')) = Some (SystemMessage (TOOLS_SYSTEM_PROMPT year) :: history)
    ∧ _tools_llm (self_ c') (SystemMessage (TOOLS_SYSTEM_PROMPT year) :: history) w
      = (w', Returned m)
    ∧ world (eff c') = w'.
Proof.
  revert c. induction limit as [|limit IH]; intros c Hnot; simpl.
  - by destruct (at_node c).
  - destruct (at_node c) eqn:Hnode; [| |done].
    all: destruct (step year c) as [c1|x c1] eqn:Hstep; [|done].
    all: intros Hrun.
    all: destruct (at_node c1) eqn:Hend;
      [apply (IH c1); [by rewrite Hend|done]..|].
    all: assert (c' = c1) as -> by (destruct limit; simpl in Hrun; rewrite Hend in Hrun; congruence).
    all: destruct (step_to_end year c c1) as (m & w' & Hllm & Hcalls & ->);
      [by rewrite Hnode|done|done|].
    all: exists (messages c), m, (world (eff c)), w'; simpl.
    all: by rewrite last_snoc.
Qed.

(** X5.  A run that finishes (from any node but [END]) ends on an assistant
    message without tool calls, and that message is what the chat model
    returned for the last request it received: the system prompt followed by
    all the messages stored before the answer. *)
Theorem finished_run_ends_on_the_model_answer year limit c c' :
  at_node c ≠ END →
  run year limit c = Finished c' →
  ∃ history m w w',
    messages c' = (history ++ [AIMessage m])%list
    ∧ ai_tool_calls m = []
    ∧ last (sent (eff c')) = Some (SystemMessage (TOOLS_SYSTEM_PROMPT year) :: history)
    ∧ _tools_llm (self_ c') (SystemMessage (TOOLS_SYSTEM_PROMPT year) :: history) w
      = (w', Returned m)
    ∧ world (eff c') = w'.
Proof. exact (finished_run_shape year limit c c'). Qed.

(** What a run appends, whatever way it ends. *)
Lemma run_adds year limit : ∀ c,
  let c' := final_config (run year limit c) in
  ∃ added requests,
    messages c' = (messages c ++ added)%list
    ∧ Forall (λ msg, is_system msg = false) added
    ∧ sent (eff c') = (sent (eff c) ++ requests)%list
    ∧ Forall (opens_with_system_prompt year) requests.
Proof.
  simpl. induction limit as [|limit IH]; intros c.
  - exists [], []. rewrite !app_nil_r. simpl. by destruct (at_node c).
  - pose proof (LoopFacts.step_adds year c) as Hstep. simpl in Hstep.
    simpl. destruct (at_node c) eqn:Hnode.
    3: { exists [], []. by rewrite !app_nil_r. }
    all: destruct (step year c) as [c1|x c1]; simpl; [|exact Hstep].
    all: destruct Hstep as (a1 & r1 & Hm1 & Ha1 & Hs1 & Hr1).
    all: destruct (IH c1) as (a2 & r2 & Hm2 & Ha2 & Hs2 & Hr2).
    all: exists (a1 ++ a2)%list, (r1 ++ r2)%list.
    all: rewrite Hm2, Hm1, Hs2, Hs1, !app_assoc.
    all: repeat split; by apply Forall_app.
Qed.

(** X6.  When the chat model's first answer carries no tool call,
    [graph.invoke] returns after that one model call: the answer is appended
    to the stored messages and the input, no tool runs, and the agent is
    untouched. *)
Theorem answer_without_tool_calls_ends_the_turn year limit self e stored input w' m :
  _tools_llm self (SystemMessage (TOOLS_SYSTEM_PROMPT year) :: stored ++ input)%list
    (world e) = (w', Returned m) →
  ai_tool_calls m = [] →
  graph_invoke year (S limit) self e stored input
  = Finished (mkConfig END (stored ++ input ++ [AIMessage m])%list self
                (mkEnv w' (sent e ++ [SystemMessage (TOOLS_SYSTEM_PROMPT year)
                                        :: stored ++ input])%list)).
Proof.
  intros Hllm Hcalls. unfold graph_invoke. simpl.
  unfold step. simpl. unfold call_tools_llm, llm_invoke. simpl. rewrite Hllm.
  unfold exists_action. rewrite last_snoc, Hcalls.
  destruct limit; simpl; by rewrite <- app_assoc.
Qed.

(** [ready] is kept by every node. *)
Lemma step_ready year c c' : ready c → step year c = Next c' → ready c'.
Proof.
  intros Hready. unfold step. destruct (at_node c) eqn:Hnode.
  - destruct (call_tools_llm year (self_ c) (messages c) (eff c)) as [e' [update|x]] eqn:Hcall;
      [|done].
    unfold call_tools_llm in Hcall.
    destruct (llm_invoke _ _ _) as [e1 [m|x]]; [|done].
    injection Hcall as <- <-.
    destruct (exists_action _) as [[|]|x]; [| |done].
    + intros [= <-] _. simpl. eauto.
    + by intros [= <-].
  - destruct (invoke_tools year (self_ c) (messages c) (eff c)) as [[self' e'] [update|x]];
      [|done].
    by intros [= <-].
  - by intros [= <-].
Qed.

(** From a [ready] configuration a node only raises what the chat model
    raised. *)
Lemma step_crash_from_model year c c' x :
  ready c → step year c = Crash x c' →
  ∃ request w,
    (_tools_llm (self_ c) request w).2 = Raised x
    ∧ opens_with_system_prompt year request.
Proof.
  intros Hready. unfold step. destruct (at_node c) eqn:Hnode.
  - unfold call_tools_llm, llm_invoke.
    destruct (_tools_llm (self_ c) _ (world (eff c))) as [w' [m|x']] eqn:Hllm; simpl.
    + unfold exists_action. rewrite last_snoc. by destruct (ai_tool_calls m).
    + intros [= <- _]. eexists _, _. by rewrite Hllm.
  - destruct (Hready Hnode) as (history & m & ->).
    rewrite LoopFacts.invoke_tools_unfold.
    destruct (execute_tools (self_ c) (ai_tool_calls m) (world (eff c)))
      as [[w results] failed].
    simpl.
    destruct (_max_retries (counted (self_ c) failed)
              <=? _error_count (counted (self_ c) failed))%nat; [|done].
    unfold _generate_fallback_plan, llm_invoke.
    rewrite LoopFacts.counted_tools_llm. cbn [world sent].
    match goal with
    | |- context [_tools_llm (self_ c) ?request w] =>
        destruct (_tools_llm (self_ c) request w) as [w' [final|x']] eqn:Hllm
    end; [done|].
    intros [= <- _]. eexists _, _. by rewrite Hllm.
  - done.
Qed.

Lemma run_fails_from_model year limit : ∀ c c' x,
  ready c → run year limit c = Failed x c' →
  ∃ request w,
    (_tools_llm (self_ c) request w).2 = Raised x
    ∧ opens_with_system_prompt year request.
Proof.
  induction limit as [|limit IH]; intros c c' x Hready; simpl.
  - by destruct (at_node c).
  - destruct (at_node c) eqn:Hnode; [| |done].
    all: destruct (step year c) as [c1|x1 c1] eqn:Hstep.
    all: try (intros [= <- _]; by apply (step_crash_from_model year c c1)).
    all: intros Hrun.
    all: destruct (IH c1 c' x (step_ready year c c1 Hready Hstep) Hrun)
           as (request & w & Hllm & Hopen).
    all: pose proof (step_attributes year c) as (_ & Hl & _); rewrite Hstep in Hl.
    all: exists request, w; by rewrite <- Hl.
Qed.

(** X7.  An exception that leaves [graph.invoke] is always one the chat
    model raised, on a request that opens with the system prompt: on no input
    does the loop itself fail on a list index, a missing attribute or a
    tool. *)
Theorem only_model_errors_leave_the_graph year limit self e stored input x c' :
  graph_invoke year limit self e stored input = Failed x c' →
  ∃ request w,
    (_tools_llm self request w).2 = Raised x
    ∧ opens_with_system_prompt year request.
Proof.
  unfold graph_invoke. intros Hrun.
  by apply (run_fails_from_model year limit _ c' x) in Hrun.
Qed.

(** X8.  While the counter, with this pass counted in, is still below the
    threshold, a pass returns the executor's result messages, one per
    request, and sends nothing to the chat model. *)
Theorem pass_below_threshold_feeds_results_back year self history m e :
  let calls := ai_tool_calls m in
  let results := (execute_tools self calls (world e)).1.2 in
  let failed_tools := (execute_tools self calls (world e)).2 in
  let pass := invoke_tools year self (history ++ [AIMessage m])%list e in
  (_error_count (counted self failed_tools) < _max_retries self)%nat →
  pass.2 = Returned results
  ∧ length results = length calls
  ∧ sent pass.1.2 = sent e
  ∧ world pass.1.2 = (execute_tools self calls (world e)).1.1.
Proof.
  simpl. intros Hlt.
  pose proof (LoopFacts.invoke_tools_returns_results year self history m e) as H.
  pose proof (ExecutorFacts.execute_tools_shape self (ai_tool_calls m) (world e)) as HF.
  destruct (execute_tools self (ai_tool_calls m) (world e)) as [[w results] failed].
  simpl in *. rewrite (H Hlt). simpl.
  repeat split. symmetry. by eapply Forall2_length.
Qed.

(** The joined list shows each of its items. *)
Lemma join_shows_item sep name : ∀ items,
  name ∈ items → ∃ pre post, join sep items = pre ++ name ++ post.
Proof.
  induction items as [|x rest IH]; [by intros ?%elem_of_nil|].
  intros [->|Hin]%elem_of_cons.
  - destruct rest as [|y rest].
    + exists "", "". simpl. by rewrite SubstringFacts.app_empty_r.
    + exists "", (sep ++ join sep (y :: rest)). reflexivity.
  - destruct (IH Hin) as (pre & post & Hj).
    destruct rest as [|y rest]; [by apply elem_of_nil in Hin|].
    exists (x ++ sep ++ pre), post.
    change (join sep (x :: y :: rest)) with (x ++ sep ++ join sep (y :: rest)).
    by rewrite Hj, !SubstringFacts.app_assoc_str.
Qed.

(** The shape of the fallback prompt: fixed text around the joined names
    and the original request. *)
Lemma fallback_prompt_shape :
  ∃ a b z, ∀ original_prompt failed_tools,
    fallback_prompt original_prompt failed_tools
    = a ++ join ", " failed_tools ++ b ++ original_prompt ++ z.
Proof. eexists _, _, _. intros. unfold fallback_prompt. reflexivity. Qed.

(** X9.  The fallback prompt quotes the original request in full and names
    every failed tool. *)
Theorem fallback_prompt_names_failed_tools original_prompt failed_tools :
  str_in original_prompt (fallback_prompt original_prompt failed_tools) = true
  ∧ ∀ name, name ∈ failed_tools →
      str_in name (fallback_prompt original_prompt failed_tools) = true.
Proof.
  destruct fallback_prompt_shape as (a & b & z & Hshape). rewrite Hshape.
  split.
  - apply SubstringFacts.str_in_spec.
    exists (a ++ join ", " failed_tools ++ b), z.
    by rewrite !SubstringFacts.app_assoc_str.
  - intros name Hin.
    destruct (join_shows_item ", " name failed_tools Hin) as (pre & post & ->).
    apply SubstringFacts.str_in_spec.
    exists (a ++ pre), (post ++ b ++ original_prompt ++ z).
    by rewrite !SubstringFacts.app_assoc_str.
Qed.

End WithWorld.

End GraphFacts.

(** ** The front end *)
Module AppFacts.

Import PyStr Agent Presentation App.

Lemma self_app_nil (s t : string) : s = s ++ t → t = "".
Proof.
  intros H. apply (SubstringFacts.app_inv_head_str s).
  by rewrite SubstringFacts.app_empty_r.
Qed.

(** [find] returns the first item that passes: when the result does not
    occur in a front part of the list, nothing in that part passes. *)
Lemma find_skips_earlier {A} (f : A → bool) (y : A) : ∀ l1 l2,
  find f (l1 ++ l2)%list = Some y →
  y ∉ l1 →
  ∀ x, x ∈ l1 → f x = false.
Proof.
  induction l1 as [|z l1 IH]; intros l2 Hfind Hy x Hin; [by apply elem_of_nil in Hin|].
  apply not_elem_of_cons in Hy as [Hyz Hy].
  simpl in Hfind. destruct (f z) eqn:Hz; [congruence|].
  apply elem_of_cons in Hin as [->|Hin]; [done|]. by apply (IH l2).
Qed.

(** X10.  [extract_location_from_preferences] returns the destination city,
    alone or followed by a space and one of the location keywords; a keyword
    is only appended when it occurs in the lower-cased preferences, and the
    city comes back alone when the preferences are empty or contain no
    keyword. *)
Theorem extract_location_shape preferences destination_city :
  let result := extract_location_from_preferences preferences destination_city in
  startswith result destination_city = true
  ∧ (result = destination_city
     ∨ ∃ keyword, keyword ∈ location_keywords
         ∧ str_in keyword (lower preferences) = true
         ∧ result = destination_city ++ " " ++ keyword)
  ∧ ((preferences = ""
      ∨ ∀ keyword, keyword ∈ location_keywords →
          str_in keyword (lower preferences) = false) →
     result = destination_city).
Proof.
  simpl. unfold extract_location_from_preferences.
  assert (Hself : startswith destination_city destination_city = true).
  { apply SubstringFacts.startswith_spec. exists "".
    by rewrite SubstringFacts.app_empty_r. }
  destruct (nonempty preferences) eqn:Hne; cbn [negb].
  2: { repeat split; auto. }
  destruct (find _ location_keywords) as [keyword|] eqn:Hfind.
  - apply find_some in Hfind as [Hin%list_elem_of_In Hkw].
    split; [apply SubstringFacts.startswith_spec; eauto|].
    split; [right; eauto|].
    intros [->|Hnone]; [done|]. rewrite (Hnone keyword Hin) in Hkw. discriminate.
  - repeat split; auto.
Qed.

(** X11.  Two keywords of the list can never be the one appended:
    "beachfront", because any text that contains it contains "beach", which
    is tried first, and "near airport", because "airport" is tried first. *)
Theorem shadowed_keywords_are_never_returned preferences destination_city :
  extract_location_from_preferences preferences destination_city
    ≠ destination_city ++ " beachfront"
  ∧ extract_location_from_preferences preferences destination_city
    ≠ destination_city ++ " near airport".
Proof.
  unfold extract_location_from_preferences.
  destruct (negb (nonempty preferences)).
  { split; by intros ?%self_app_nil. }
  set (pl := lower preferences).
  destruct (find _ location_keywords) as [keyword|] eqn:Hfind.
  2: { split; by intros ?%self_app_nil. }
  pose proof Hfind as [_ Hkw]%find_some.
  split; intros Heq%SubstringFacts.app_inv_head_str;
    change (" " ++ keyword) with (String " " keyword) in Heq;
    injection Heq as ->.
  - assert (Hbeach : str_in "beach" pl = false).
    { apply (find_skips_earlier _ "beachfront"
               ["cbd"; "city center"; "downtown"; "beach"] _ Hfind);
        [|rewrite !elem_of_cons; auto].
      rewrite !not_elem_of_cons. repeat split; try done. apply not_elem_of_nil. }
    rewrite (SubstringFacts.str_in_trans "beach" "beachfront" pl eq_refl Hkw) in Hbeach.
    discriminate.
  - assert (Hair : str_in "airport" pl = false).
    { apply (find_skips_earlier _ "near airport"
               ["cbd"; "city center"; "downtown"; "beach"; "beachfront"; "airport"] _ Hfind);
        [|rewrite !elem_of_cons; auto 10].
      rewrite !not_elem_of_cons. repeat split; try done. apply not_elem_of_nil. }
    rewrite (SubstringFacts.str_in_trans "airport" "near airport" pl eq_refl Hkw) in Hair.
    discriminate.
Qed.

(** Later inserts under other keys do not change a lookup. *)
Lemma iata_lookup_other (key : string) :
  ∀ (airports : list airport) (d : gmap string string),
  key ∉ display <$> airports →
  foldl (λ d a, <[display a := iata a]> d) d airports !! key = d !! key.
Proof.
  induction airports as [|x rest IH]; intros d Hnot; [done|].
  simpl. rewrite fmap_cons, not_elem_of_cons in Hnot. destruct Hnot as [Hne Hrest].
  rewrite IH; [|done]. by rewrite lookup_insert_ne.
Qed.

(** X12.  In a table whose display texts are pairwise distinct and whose
    IATA codes are pairwise distinct, every airport's display text maps back
    to its own code in [iata_lookup], and its code finds its own city: for
    whatever the select boxes offer, the city lookup of
    [process_initial_query] succeeds. *)
Theorem airport_tables_agree airports a :
  NoDup (display <$> airports) →
  NoDup (iata <$> airports) →
  a ∈ airports →
  iata_lookup airports !! display a = Some (iata a)
  ∧ destination_city_of airports (iata a) = Some (city a).
Proof.
  intros Hd Hi Hin. split.
  - unfold iata_lookup. generalize (∅ : gmap string string) as d.
    induction airports as [|x rest IH]; intros d; [by apply elem_of_nil in Hin|].
    rewrite fmap_cons in Hd, Hi.
    apply NoDup_cons in Hd as [Hx Hd]. apply NoDup_cons in Hi as [_ Hi].
    simpl. apply elem_of_cons in Hin as [->|Hin].
    + rewrite iata_lookup_other; [|done]. by rewrite lookup_insert_eq.
    + by apply IH.
  - unfold destination_city_of. clear Hd.
    induction airports as [|x rest IH]; [by apply elem_of_nil in Hin|].
    rewrite fmap_cons in Hi. apply NoDup_cons in Hi as [Hx Hi].
    simpl. apply elem_of_cons in Hin as [->|Hin].
    + by rewrite String.eqb_refl.
    + destruct (String.eqb_spec (iata x) (iata a)) as [Heq|Hne]; [|by apply IH].
      exfalso. apply Hx. rewrite Heq. by apply list_elem_of_fmap_2.
Qed.

End AppFacts.

(** ** One turn of the chat: [send_message] and [process_initial_query] *)
Module TurnFacts.

Import PyStr Agent Presentation App.

Section WithWorld.

Context {World : Type}.
Variable year : N.
Variable recursion_limit : nat.
Variable recursion_text : string.
Variable new_agent : Agent World.

(** The two ways [send_message] ends, read off the run of the graph. *)
Lemma send_message_finished (s : session World) e text c :
  graph_invoke year recursion_limit (ss_agent s) e
    (default [] (ss_memory s !! ss_thread_id s)) [HumanMessage text] = Finished c →
  ∃ history m,
    messages c = (history ++ [AIMessage m])%list
    ∧ ai_tool_calls m = []
    ∧ send_message year recursion_limit recursion_text new_agent s e text =
        (mkSession (ss_messages s ++ [Entry "user" text; Entry "assistant" (ai_content m)])%list
           (self_ c) (<[ss_thread_id s := messages c]> (ss_memory s)) (ss_thread_id s),
         eff c,
         if shows_warning (ai_content m) then [st_warning_degraded] else [],
         true).
Proof.
  intros Hrun. pose proof Hrun as Hshape.
  apply GraphFacts.finished_run_shape in Hshape as (history & m & _ & _ & Hm & Hcalls & _);
    [|done].
  exists history, m. repeat split; [done..|].
  unfold send_message. cbn [ss_agent ss_memory ss_thread_id ss_messages].
  rewrite Hrun, Hm, last_snoc. cbn [content]. by rewrite <- app_assoc.
Qed.

Lemma send_message_not_finished (s : session World) e text :
  raised_text recursion_text
    (graph_invoke year recursion_limit (ss_agent s) e
       (default [] (ss_memory s !! ss_thread_id s)) [HumanMessage text]) ≠ None →
  ∃ e' reason,
    send_message year recursion_limit recursion_text new_agent s e text =
      (mkSession (ss_messages s ++ [Entry "user" text])%list new_agent ∅ (ss_thread_id s),
       e', [st_error ("Error processing message: " ++ reason)], false).
Proof.
  unfold send_message. cbn [ss_agent ss_memory ss_thread_id ss_messages].
  destruct (graph_invoke _ _ _ _ _ _) as [c|x c|c]; [done|..]; intros _.
  - by exists (eff c), (exn_text x).
  - by exists (eff c), recursion_text.
Qed.


(** X14.  A turn that returns [True] stores, under the session's thread,
    the messages stored before, then the user's message, then what the loop
    appended, none of it a system message; the other threads are untouched.
    A turn that returns [False] leaves no stored thread at all. *)
Theorem turn_and_stored_threads (s : session World) e text :
  let r := send_message year recursion_limit recursion_text new_agent s e text in
  let stored := default [] (ss_memory s !! ss_thread_id s) in
  if r.2 then
    (∃ added,
       ss_memory r.1.1.1 !! ss_thread_id s
         = Some (stored ++ HumanMessage text :: added)%list
       ∧ Forall (λ msg, is_system msg = false) added)
    ∧ ∀ thread, thread ≠ ss_thread_id s →
        ss_memory r.1.1.1 !! thread = ss_memory s !! thread
  else ss_memory r.1.1.1 = ∅.
Proof.
  simpl.
  destruct (graph_invoke year recursion_limit (ss_agent s) e
              (default [] (ss_memory s !! ss_thread_id s)) [HumanMessage text])
    as [c|x c|c] eqn:Hrun.
  - destruct (send_message_finished s e text c Hrun) as (history & m & _ & _ & ->).
    cbn [fst snd ss_memory]. split.
    + pose proof (GraphFacts.run_adds year recursion_limit (mkConfig call_tools_llm_node
           (default [] (ss_memory s !! ss_thread_id s) ++ [HumanMessage text])%list
           (ss_agent s) e))
        as (added & _ & Hm & Hadded & _).
      unfold graph_invoke in Hrun. rewrite Hrun in Hm. simpl in Hm.
      exists added. rewrite lookup_insert_eq, Hm, <- app_assoc. done.
    + intros thread Hne. by rewrite lookup_insert_ne.
  - by destruct (send_message_not_finished s e text) as (e' & reason & ->);
      [by rewrite Hrun|].
  - by destruct (send_message_not_finished s e text) as (e' & reason & ->);
      [by rewrite Hrun|].
Qed.

(** X15.  Over a turn that returns [True] the session keeps its agent: same
    registry, chat model and threshold, and a failure counter that did not
    go down, so an agent at the threshold is still at it in the next turn.
    After a turn that returns [False] the session holds the newly built
    agent. *)
Theorem turn_and_agent (s : session World) e text :
  let r := send_message year recursion_limit recursion_text new_agent s e text in
  if r.2 then
    _tools (ss_agent r.1.1.1) = _tools (ss_agent s)
    ∧ _tools_llm (ss_agent r.1.1.1) = _tools_llm (ss_agent s)
    ∧ _max_retries (ss_agent r.1.1.1) = _max_retries (ss_agent s)
    ∧ (_error_count (ss_agent s) <= _error_count (ss_agent r.1.1.1))%nat
    ∧ (threshold_reached (ss_agent s) → threshold_reached (ss_agent r.1.1.1))
  else ss_agent r.1.1.1 = new_agent.
Proof.
  simpl.
  destruct (graph_invoke year recursion_limit (ss_agent s) e
              (default [] (ss_memory s !! ss_thread_id s)) [HumanMessage text])
    as [c|x c|c] eqn:Hrun.
  - destruct (send_message_finished s e text c Hrun) as (history & m & _ & _ & ->).
    cbn [fst snd ss_agent].
    pose proof (GraphFacts.run_attributes year recursion_limit (mkConfig call_tools_llm_node
           (default [] (ss_memory s !! ss_thread_id s) ++ [HumanMessage text])%list
           (ss_agent s) e))
      as (Ht & Hl & Hm & Hc & _).
    unfold graph_invoke in Hrun. rewrite Hrun in Ht, Hl, Hm, Hc. simpl in *.
    repeat split; try done. unfold threshold_reached. lia.
  - by destruct (send_message_not_finished s e text) as (e' & reason & ->);
      [by rewrite Hrun|].
  - by destruct (send_message_not_finished s e text) as (e' & reason & ->);
      [by rewrite Hrun|].
Qed.

(** X16.  [process_initial_query] sends nothing to the agent and leaves
    the session as it is, showing one error and returning [False], when the
    form is incomplete (no departure, no destination, no check-in date, or no
    check-out date on a trip that is not 'One Way'), and also when the form
    is complete but the destination is not in the airport table; in that
    second case the error text ends after the colon, the exception having
    no text. *)
Theorem incomplete_or_unknown_trip_sends_nothing airports (s : session World) e
    departure destination check_in check_out preferences energy_level budget trip_type :
  let r := process_initial_query year recursion_limit recursion_text new_agent airports
             s e departure destination check_in check_out
             preferences energy_level budget trip_type in
  ((departure = "" ∨ destination = "" ∨ check_in = None
    ∨ (check_out = None ∧ trip_type ≠ "One Way")) →
   r = (s, e, [st_error "Please enter a departure, destination, and valid dates."], false))
  ∧ (departure ≠ "" → destination ≠ "" → is_Some check_in →
     (is_Some check_out ∨ trip_type = "One Way") →
     destination_city_of airports destination = None →
     r = (s, e, [st_error "Error generating travel plan: "], false)).
Proof.
  simpl. unfold process_initial_query. split.
  - intros [->|[->|[->|[-> Hway]]]]; [| | done |].
    + by destruct check_in.
    + destruct check_in; [|done]. by rewrite andb_false_r.
    + destruct check_in; [|done].
      destruct (String.eqb_spec trip_type "One Way"); [done|].
      by rewrite !andb_false_r.
  - intros Hdep Hdest [check_in_date ->] Hout Hcity.
    assert (nonempty departure = true) as -> by (by destruct departure).
    assert (nonempty destination = true) as -> by (by destruct destination).
    assert (bool_decide (is_Some check_out) || String.eqb trip_type "One Way" = true) as ->.
    { destruct Hout as [Hsome| ->]; [by rewrite bool_decide_eq_true_2|].
      by rewrite orb_true_r. }
    cbn [andb]. unfold plan_prompt. rewrite Hcity.
    destruct (String.eqb_spec trip_type "Return") as [->|_]; [|done].
    destruct Hout as [[out ->]|Hway]; [done|discriminate].
Qed.

(** X17.  For a destination of the table and a form that passes the guard,
    the prompt handed to [send_message] carries the travel dates in ISO
    form, with the number of days between them on a return trip, and, when
    preferences are given, the hotel location computed by
    [extract_location_from_preferences] for the destination's city. *)
Theorem plan_prompt_carries_trip airports departure destination check_in check_out
    preferences energy_level budget trip_type destination_city :
  destination_city_of airports destination = Some destination_city →
  (trip_type = "Return" → is_Some check_out) →
  ∃ prompt,
    plan_prompt airports departure destination check_in check_out
      preferences energy_level budget trip_type = Returned prompt
    ∧ (∀ out, trip_type = "Return" → check_out = Some out →
         str_in ("from " ++ isoformat check_in ++ " to " ++ isoformat out ++ " ("
                   ++ pretty (toordinal out - toordinal check_in)%Z ++ " days)")
                prompt = true)
    ∧ (trip_type ≠ "Return" →
         str_in ("departing on " ++ isoformat check_in ++ " (one way)") prompt = true)
    ∧ (preferences ≠ "" →
         str_in ("use location '"
                   ++ extract_location_from_preferences preferences destination_city
                   ++ "'")
                prompt = true).
Proof.
  intros Hcity Hout. unfold plan_prompt. rewrite Hcity.
  assert (Hdate : ∀ date_str budget_str hotel_preferences,
            str_in date_str
              (user_prompt trip_type departure destination date_str preferences
                 energy_level budget_str budget hotel_preferences) = true).
  { intros. unfold user_prompt.
    do 7 apply SubstringFacts.str_in_app_r.
    apply SubstringFacts.str_in_app_l, SubstringFacts.str_in_self. }
  assert (Hhotel : ∀ date_str budget_str hotel_preferences,
            str_in hotel_preferences
              (user_prompt trip_type departure destination date_str preferences
                 energy_level budget_str budget hotel_preferences) = true).
  { intros. unfold user_prompt.
    do 23 apply SubstringFacts.str_in_app_r.
    apply SubstringFacts.str_in_app_l, SubstringFacts.str_in_self. }
  assert (Hloc : preferences ≠ "" →
            ∀ date_str budget_str,
            str_in ("use location '"
                      ++ extract_location_from_preferences preferences destination_city
                      ++ "'")
              (user_prompt trip_type departure destination date_str preferences
                 energy_level budget_str budget
                 (if nonempty preferences then
                    " When searching for hotels, use location '"
                      ++ extract_location_from_preferences preferences destination_city
                      ++ "' and consider these preferences: " ++ preferences ++ "."
                  else "")) = true).
  { intros Hne date_str budget_str.
    eapply SubstringFacts.str_in_trans; [|apply Hhotel].
    assert (nonempty preferences = true) as -> by (by destruct preferences).
    apply SubstringFacts.str_in_spec.
    exists " When searching for hotels, ",
           (" and consider these preferences: " ++ preferences ++ ".").
    set (loc := extract_location_from_preferences preferences destination_city).
    rewrite !SubstringFacts.app_assoc_str. reflexivity. }
  destruct (String.eqb_spec trip_type "Return") as [->|Hne].
  - destruct (Hout eq_refl) as [out ->]. eexists. split; [reflexivity|].
    repeat split.
    + intros out' _ [= <-]. apply Hdate.
    + done.
    + intros Hp. by apply Hloc.
  - eexists. split; [reflexivity|]. repeat split.
    + done.
    + intros _. apply Hdate.
    + intros Hp. by apply Hloc.
Qed.

End WithWorld.

End TurnFacts.

(** ** The further theorems at concrete inputs *)
Module MoreInstances.

Import PyStr Agent Presentation App Scenario Stage.

Lemma unknown_tools_touch_nothing_witness :
  execute_tools (agent_with eager_model) [unknown_call; unknown_call] (mkWorld 0 0)
  = (mkWorld 0 0,
     [ToolMessage "call_c" "car_rental"
        "[CAR_RENTAL ERROR] Tool 'car_rental' not found. The assistant will continue with available information.";
      ToolMessage "call_c" "car_rental"
        "[CAR_RENTAL ERROR] Tool 'car_rental' not found. The assistant will continue with available information."],
     ["car_rental"; "car_rental"]).
Proof.
  rewrite (ExecutorMore.unknown_tools_touch_nothing (agent_with eager_model)
             [unknown_call; unknown_call] (mkWorld 0 0)); [reflexivity|].
  intros tc [->|[->|[]%elem_of_nil]%elem_of_cons]%elem_of_cons; vm_compute; reflexivity.
Defined.

Lemma failed_call_keeps_error_text_witness :
  str_in "Invalid API key"
    (content (result_of (init flights_no_key hotels_raising weather_info eager_model)
                hotels_call (mkWorld 0 0))) = true.
Proof.
  destruct (ExecutorMore.failed_call_keeps_error_text
              (init flights_no_key hotels_raising weather_info eager_model)
              hotels_call (mkWorld 0 0)) as [H _].
  apply (H (mkWorld 0 1) (Exn "SerpApiError" "Invalid API key")).
  vm_compute; reflexivity.
Defined.

Lemma finished_run_ends_on_the_model_answer_witness :
  ∃ history m,
    messages (final_config (run year 25 (start calm_model)))
    = (history ++ [AIMessage m])%list
    ∧ ai_tool_calls m = [].
Proof.
  destruct (GraphFacts.finished_run_ends_on_the_model_answer year 25 (start calm_model)
              (final_config (run year 25 (start calm_model))))
    as (history & m & _ & _ & Hm & Hcalls & _);
    [discriminate | vm_compute; reflexivity | eauto].
Defined.

Lemma answer_without_tool_calls_ends_the_turn_witness :
  observe_result (graph_invoke year 25 (agent_with direct_model) fresh []
                    [HumanMessage user_prompt])
  = ("finished", (END, 0%nat, Some (AIMessage (AI "reply 0" [])), 1%nat, 0%nat)).
Proof.
  rewrite (GraphFacts.answer_without_tool_calls_ends_the_turn year 24
             (agent_with direct_model) fresh [] [HumanMessage user_prompt]
             (mkWorld 1 0) (AI "reply 0" []) eq_refl eq_refl).
  vm_compute; reflexivity.
Defined.

Lemma only_model_errors_leave_the_graph_witness :
  ∃ request w,
    (failing_model request w).2 = Raised (Exn "APIConnectionError" "Connection error.")
    ∧ opens_with_system_prompt year request.
Proof.
  apply (GraphFacts.only_model_errors_leave_the_graph year 25 (agent_with failing_model)
           fresh [] [HumanMessage user_prompt] _
           (final_config (graph_invoke year 25 (agent_with failing_model) fresh []
                            [HumanMessage user_prompt]))).
  vm_compute; reflexivity.
Defined.

Lemma pass_below_threshold_feeds_results_back_witness :
  (invoke_tools year (agent_with eager_model)
     ([HumanMessage user_prompt] ++ [AIMessage (AI "" [flights_call; hotels_call])])%list
     fresh).2
  = Returned
      [ToolMessage "call_f" "flights_finder"
         "[FLIGHTS_FINDER ERROR] SERPAPI_API_KEY environment variable is not set.. The assistant will continue with available information.";
       ToolMessage "call_h" "hotels_finder" "[]"].
Proof.
  destruct (GraphFacts.pass_below_threshold_feeds_results_back year (agent_with eager_model)
              [HumanMessage user_prompt] (AI "" [flights_call; hotels_call]) fresh)
    as (-> & _); [vm_compute; lia|].
  vm_compute; reflexivity.
Defined.

Lemma fallback_prompt_names_failed_tools_witness :
  str_in "hotels_finder"
    (fallback_prompt user_prompt ["flights_finder"; "hotels_finder"]) = true.
Proof.
  destruct (GraphFacts.fallback_prompt_names_failed_tools user_prompt
              ["flights_finder"; "hotels_finder"]) as [_ H].
  apply H. rewrite !elem_of_cons. auto.
Defined.

Lemma extract_location_shape_witness :
  extract_location_from_preferences "" "Perth" = "Perth".
Proof.
  destruct (AppFacts.extract_location_shape "" "Perth") as (_ & _ & H).
  apply H. by left.
Defined.

Lemma airport_tables_agree_witness :
  iata_lookup AIRPORTS !! "Queenstown (ZQN) - Queenstown" = Some "ZQN"
  ∧ destination_city_of AIRPORTS "ZQN" = Some "Queenstown".
Proof.
  apply (AppFacts.airport_tables_agree AIRPORTS (Airport "Queenstown" "ZQN" "Queenstown")).
  - apply (bool_decide_unpack (NoDup (display <$> AIRPORTS))). vm_compute. reflexivity.
  - apply (bool_decide_unpack (NoDup (iata <$> AIRPORTS))). vm_compute. reflexivity.
  - unfold AIRPORTS. rewrite !elem_of_cons. auto 20.
Defined.

Lemma incomplete_or_unknown_trip_sends_nothing_witness :
  plan_for (session_with direct_model) "SYD" "MEL" (Some (Date 2026 11 5)) None "Return"
  = (session_with direct_model, fresh,
     [st_error "Please enter a departure, destination, and valid dates."], false)
  ∧ plan_for (session_with direct_model) "SYD" "LAX" (Some (Date 2026 11 5)) None "One Way"
    = (session_with direct_model, fresh,
       [st_error "Error generating travel plan: "], false).
Proof.
  split.
  - apply (TurnFacts.incomplete_or_unknown_trip_sends_nothing year 25
             "Recursion limit of 25 reached" (agent_with direct_model) AIRPORTS
             (session_with direct_model) fresh "SYD" "MEL" (Some (Date 2026 11 5)) None).
    right. right. right. by split.
  - apply (TurnFacts.incomplete_or_unknown_trip_sends_nothing year 25
             "Recursion limit of 25 reached" (agent_with direct_model) AIRPORTS
             (session_with direct_model) fresh "SYD" "LAX" (Some (Date 2026 11 5)) None);
      [done | done | by eexists | by right | vm_compute; reflexivity].
Defined.

Lemma plan_prompt_carries_trip_witness :
  ∃ prompt,
    plan_prompt AIRPORTS "SYD" "MEL" (Date 2026 11 5) (Some (Date 2026 11 10))
      "prefer the CBD" "Relaxed" "" "Return" = Returned prompt
    ∧ str_in "from 2026-11-05 to 2026-11-10 (5 days)" prompt = true
    ∧ str_in "use location 'Melbourne cbd'" prompt = true.
Proof.
  destruct (TurnFacts.plan_prompt_carries_trip AIRPORTS "SYD" "MEL" (Date 2026 11 5)
              (Some (Date 2026 11 10)) "prefer the CBD" "Relaxed" "" "Return" "Melbourne")
    as (prompt & Hp & Hdates & _ & Hloc);
    [vm_compute; reflexivity | by eexists |].
  exists prompt. split; [exact Hp|]. split.
  - exact (Hdates (Date 2026 11 10) eq_refl eq_refl).
  - by apply Hloc.
Defined.

(** A first message answered at once, and a first message on a provider
    that is down. *)
Example first_turn :
  (let r := send_to direct_model "Hello" in
   (ss_messages r.1.1.1, r.1.2, r.2, _error_count (ss_agent r.1.1.1),
    ss_memory r.1.1.1 !! "thread-1")
   = ([Entry "user" "Hello"; Entry "assistant" "reply 0"], [], true, 0%nat,
      Some [HumanMessage "Hello"; AIMessage (AI "reply 0" [])]))
  ∧ (let r := send_to failing_model "Hello" in
     (ss_messages r.1.1.1, r.1.2, r.2, ss_memory r.1.1.1 !! "thread-1")
     = ([Entry "user" "Hello"],
        [st_error "Error processing message: Connection error."], false, None)).
Proof. split; vm_compute; reflexivity. Qed.

End MoreInstances.

(** ** The forecast request *)
Module ForecastFacts.

Import PyStr PyJson Forecast.

Section WithParameters.

Variable fault : op → json → exn.
Variable show : json → string.
Variable fetch : string → string → string → outcome json.

(** What the [try] body returns when it returns. *)
Lemma read_forecast_returns location date data result :
  read_forecast fault show location date data = Returned result →
  result = [("error", PyStr_ ("No weather data available for " ++ location
                                ++ " on " ++ date ++ "."))]
  ∨ ∃ condition avg_temp_c max_temp_c min_temp_c,
      result = [("location", PyStr_ location);
                ("date", PyStr_ date);
                ("condition", condition);
                ("avg_temp_c", avg_temp_c);
                ("max_temp_c", max_temp_c);
                ("min_temp_c", min_temp_c);
                ("source", PyStr_ "WeatherAPI.com")].
Proof.
  unfold read_forecast.
  destruct (has_forecast_day fault data) as [[|]|e]; simpl; [| |done].
  - destruct (first_day fault data) as [day|e]; simpl; [|done].
    destruct (subscript fault "condition" day) as [c|e]; simpl; [|done].
    destruct (subscript fault "text" c) as [condition|e]; simpl; [|done].
    destruct (subscript fault "avgtemp_c" day) as [avg|e]; simpl; [|done].
    destruct (subscript fault "maxtemp_c" day) as [mx|e]; simpl; [|done].
    destruct (subscript fault "mintemp_c" day) as [mn|e]; simpl; [|done].
    intros [= <-]. right. eauto 10.
  - intros [= <-]. by left.
Qed.

(** X18.  Whatever the key, the clock, the arguments and the forecast
    service's answer, [weather_check] returns a dict of one of three kinds:
    an error dict (with the ['error'] key), the one-key ['info'] dict of the
    horizon check, or the seven-key forecast dict that repeats the requested
    location and date and names its source; the last two have no ['error']
    key. *)
Theorem weather_check_returns_one_of_three strptime api_key today location date :
  let result := weather_check fault show fetch strptime api_key today location date in
  Weather.is_error_map result = true
  ∨ (Weather.is_error_map result = false ∧ ∃ text, result = [("info", PyStr_ text)])
  ∨ (Weather.is_error_map result = false
     ∧ ∃ condition avg_temp_c max_temp_c min_temp_c,
         result = [("location", PyStr_ location);
                   ("date", PyStr_ date);
                   ("condition", condition);
                   ("avg_temp_c", avg_temp_c);
                   ("max_temp_c", max_temp_c);
                   ("min_temp_c", min_temp_c);
                   ("source", PyStr_ "WeatherAPI.com")]).
Proof.
  simpl. unfold weather_check, Weather.weather_check.
  destruct api_key as [[|k key]|]; [by left| |by left].
  destruct (strptime date) as [forecast_date|]; [|by left].
  destruct (forecast_date - today <? 0)%Z; [by left|].
  destruct (14 <? forecast_date - today)%Z; [right; left; eauto|].
  unfold forecast_request.
  destruct (fetch (String k key) location date) as [data|e]; simpl; [|by left].
  destruct (read_forecast fault show location date data) as [result|e] eqn:Hread;
    [|by left].
  apply read_forecast_returns in Hread as [->|(c & a & mx & mn & ->)]; [by left|].
  right. right. split; [done|eauto 10].
Qed.

(** X19.  When the service answers with a dict whose ['forecast'] has a
    non-empty ['forecastday'] list whose first entry has a ['day'] dict with
    ['condition']['text'], ['avgtemp_c'], ['maxtemp_c'] and ['mintemp_c'],
    the forecast request returns the forecast dict built from exactly these
    values; other keys of the answer play no part. *)
Theorem complete_answer_gives_the_forecast api_key location date
    top forecast day0 others day cond condition avg_temp_c max_temp_c min_temp_c :
  fetch api_key location date = Returned (JDict top) →
  jlookup top "forecast" = Some (JDict forecast) →
  jlookup forecast "forecastday" = Some (JList (JDict day0 :: others)) →
  jlookup day0 "day" = Some (JDict day) →
  jlookup day "condition" = Some (JDict cond) →
  jlookup cond "text" = Some condition →
  jlookup day "avgtemp_c" = Some avg_temp_c →
  jlookup day "maxtemp_c" = Some max_temp_c →
  jlookup day "mintemp_c" = Some min_temp_c →
  forecast_request fault show fetch api_key location date
  = [("location", PyStr_ location);
     ("date", PyStr_ date);
     ("condition", to_pyval show condition);
     ("avg_temp_c", to_pyval show avg_temp_c);
     ("max_temp_c", to_pyval show max_temp_c);
     ("min_temp_c", to_pyval show min_temp_c);
     ("source", PyStr_ "WeatherAPI.com")].
Proof.
  intros Hfetch Hf Hd H0 Hc Ht Ha Hx Hn.
  unfold forecast_request. rewrite Hfetch. simpl.
  unfold read_forecast, has_forecast_day, first_day. simpl.
  rewrite Hf. simpl. rewrite Hd. simpl. rewrite H0. simpl.
  rewrite Hc. simpl. rewrite Ht. simpl. rewrite Ha. simpl. rewrite Hx. simpl.
  rewrite Hn. simpl. reflexivity.
Qed.

(** Every answer of the plain-text tool has the form: some text, the
    location, " on ", the date, some text. *)
Lemma weather_text_shape api_key location date :
  ∃ before after,
    weather_text fault show fetch api_key location date
    = before ++ location ++ " on " ++ date ++ after.
Proof.
  unfold weather_text.
  destruct api_key as [[|k key]|]; [by eexists _, _| |by eexists _, _].
  destruct (fetch (String k key) location date) as [data|e]; simpl; [|by eexists _, _].
  destruct (has_forecast_day fault data) as [[|]|e]; simpl; [|by eexists _, _..].
  destruct (first_day fault data) as [day|e]; simpl; [|by eexists _, _].
  destruct (subscript fault "condition" day) as [c|e]; simpl; [|by eexists _, _].
  destruct (subscript fault "text" c) as [condition|e]; simpl; [|by eexists _, _].
  destruct (subscript fault "avgtemp_c" day) as [avg|e]; simpl; [|by eexists _, _].
  destruct (subscript fault "mintemp_c" day) as [mn|e]; simpl; [|by eexists _, _].
  destruct (subscript fault "maxtemp_c" day) as [mx|e]; simpl; [|by eexists _, _].
  by eexists "", _.
Qed.

(** X20.  The plain-text weather tool (of [agent_react.py] and of the MCP
    server) always answers with a text that contains the requested location
    and the requested date, whether the key is missing, the request fails,
    the answer is malformed or the forecast is there. *)
Theorem weather_text_names_place_and_date api_key location date :
  str_in location (weather_text fault show fetch api_key location date) = true
  ∧ str_in date (weather_text fault show fetch api_key location date) = true.
Proof.
  destruct (weather_text_shape api_key location date) as (before & after & ->).
  split.
  - apply SubstringFacts.str_in_middle.
  - do 3 apply SubstringFacts.str_in_app_r.
    apply SubstringFacts.str_in_app_l, SubstringFacts.str_in_self.
Qed.

End WithParameters.

End ForecastFacts.

(** ** The search tools *)
Module SearchFacts.

Import PyStr PyJson Search SearchAux Agent.



Section WithWorld.

Context {World : Type}.
Variable fault : op → json → exn.
Variable show : json → string.
Variable strptime : string → option Z.
Variable search : json → World → World * outcome response.
Variable is_serp_error : exn → bool.
Variable py_int : string → option Z.

(** X22.  [flights_finder] makes no search, and returns an error dict with
    its own message, when the API key is missing or empty, and otherwise at
    the first check that fails, in this order: departure code, arrival code,
    outbound date, and a return date that is given. *)
Theorem flights_checks_come_before_any_search api_key (params : FlightsInput) (w : World) :
  let r := flights_finder fault show strptime search is_serp_error api_key params w in
  ((api_key = None ∨ api_key = Some "") →
   r = (w, error_map "SERPAPI_API_KEY environment variable is not set."))
  ∧ (∀ k key, api_key = Some (String k key) →
     (validate_airport_code (departure_airport params) = false →
      r = (w, error_map ("Invalid departure airport code: " ++ departure_airport params
                           ++ ". Must be a valid 3-letter IATA code.")))
     ∧ (validate_airport_code (departure_airport params) = true →
        validate_airport_code (arrival_airport params) = false →
        r = (w, error_map ("Invalid arrival airport code: " ++ arrival_airport params
                             ++ ". Must be a valid 3-letter IATA code.")))
     ∧ (validate_airport_code (departure_airport params) = true →
        validate_airport_code (arrival_airport params) = true →
        validate_date_format strptime (outbound_date params) = false →
        r = (w, error_map ("Invalid outbound date format: " ++ outbound_date params
                             ++ ". Must be in YYYY-MM-DD format.")))
     ∧ (validate_airport_code (departure_airport params) = true →
        validate_airport_code (arrival_airport params) = true →
        validate_date_format strptime (outbound_date params) = true →
        ∀ d, given_return_date params = Some d →
        validate_date_format strptime d = false →
        r = (w, error_map ("Invalid return date format: " ++ d
                             ++ ". Must be in YYYY-MM-DD format.")))).
Proof.
  simpl. unfold flights_finder. split.
  - by intros [->| ->].
  - intros k key ->. repeat split.
    + by intros ->.
    + by intros -> ->.
    + by intros -> -> ->.
    + by intros -> -> -> d -> ->.
Qed.

(** With every check passed, [flights_finder] is the retry loop. *)
Lemma flights_finder_valid k key (params : FlightsInput) (w : World) :
  validate_airport_code (departure_airport params) = true →
  validate_airport_code (arrival_airport params) = true →
  validate_date_format strptime (outbound_date params) = true →
  (∀ d, given_return_date params = Some d → validate_date_format strptime d = true) →
  flights_finder fault show strptime search is_serp_error (Some (String k key)) params w
  = retry_loop fault show search is_serp_error (seq 0 max_retries)
      (flights_params_dict show (String k key) params) w.
Proof.
  intros Hd Ha Ho Hr. unfold flights_finder. rewrite Hd, Ha, Ho. cbn [negb].
  destruct (given_return_date params) as [d|] eqn:Hgiven; [|done].
  by rewrite (Hr d eq_refl).
Qed.

(** The three rounds of the loop. *)
Lemma retry_loop_three params_dict (w : World) :
  let r := retry_loop fault show search is_serp_error (seq 0 max_retries) params_dict w in
  ∃ n, (1 <= n <= 3)%nat
    ∧ r.1 = after_attempts fault show search is_serp_error n params_dict w
    ∧ (∀ i, (i < n - 1)%nat →
         attempt_returned (nth_attempt fault show search is_serp_error i params_dict w)
         = false)
    ∧ match nth_attempt fault show search is_serp_error (n - 1) params_dict w with
      | returns value => r.2 = value
      | serp_api_error e =>
          n = 3%nat
          ∧ r.2 = error_map ("SerpAPI error: " ++ exn_text e ++ ". Please try again later.")
      | unexpected_error e =>
          n = 3%nat
          ∧ r.2 = error_map ("Unexpected error: " ++ exn_text e
                               ++ ". Please try again later.")
      end.
Proof.
  cbn zeta. unfold nth_attempt. change (seq 0 max_retries) with [0; 1; 2]%nat.
  cbn [retry_loop].
  destruct (attempt_once fault show search is_serp_error params_dict w)
    as [w1 a1] eqn:H1.
  destruct a1 as [v1|e1|e1].
  { exists 1%nat. cbn [after_attempts Nat.sub]. rewrite H1.
    split; [lia|]. split; [done|]. split; [intros i Hi; lia|done]. }
  all: cbn [max_retries Nat.sub Nat.ltb Nat.leb].
  all: destruct (attempt_once fault show search is_serp_error params_dict w1)
         as [w2 a2] eqn:H2.
  all: destruct a2 as [v2|e2|e2].
  all: try (exists 2%nat; cbn [after_attempts Nat.sub]; rewrite H1; cbn [fst snd];
            rewrite H2;
            split; [lia|]; split; [done|]; split; [|done];
            intros [|i] Hi; [cbn [after_attempts]; by rewrite H1|lia]).
  all: destruct (attempt_once fault show search is_serp_error params_dict w2)
         as [w3 a3] eqn:H3.
  all: exists 3%nat; cbn [after_attempts Nat.sub]; rewrite H1; cbn [fst snd];
    rewrite H2; cbn [fst snd]; rewrite H3.
  all: split; [lia|]; split; [by destruct a3|]; split;
    [intros [|[|i]] Hi;
       [cbn [after_attempts]; by rewrite H1
       |cbn [after_attempts]; rewrite H1; cbn [fst]; by rewrite H2
       |lia]
    |by destruct a3].
Qed.

(** X23.  With the key set and all checks passed, [flights_finder] searches
    at least once and at most three times: it returns what the first attempt
    that does not end in an exception returns and searches no further; and
    when all three attempts end in an exception it returns an error dict
    built from the third exception, worded "SerpAPI error" for an exception
    of the search client and "Unexpected error" for any other. *)
Theorem flights_retry_at_most_three_times k key (params : FlightsInput) (w : World) :
  validate_airport_code (departure_airport params) = true →
  validate_airport_code (arrival_airport params) = true →
  validate_date_format strptime (outbound_date params) = true →
  (∀ d, given_return_date params = Some d → validate_date_format strptime d = true) →
  let params_dict := flights_params_dict show (String k key) params in
  let r := flights_finder fault show strptime search is_serp_error
             (Some (String k key)) params w in
  ∃ n, (1 <= n <= 3)%nat
    ∧ r.1 = after_attempts fault show search is_serp_error n params_dict w
    ∧ (∀ i, (i < n - 1)%nat →
         attempt_returned (nth_attempt fault show search is_serp_error i params_dict w)
         = false)
    ∧ match nth_attempt fault show search is_serp_error (n - 1) params_dict w with
      | returns value => r.2 = value
      | serp_api_error e =>
          n = 3%nat
          ∧ r.2 = error_map ("SerpAPI error: " ++ exn_text e ++ ". Please try again later.")
      | unexpected_error e =>
          n = 3%nat
          ∧ r.2 = error_map ("Unexpected error: " ++ exn_text e
                               ++ ". Please try again later.")
      end.
Proof.
  intros Hd Ha Ho Hr. cbn zeta. rewrite (flights_finder_valid k key params w Hd Ha Ho Hr).
  apply retry_loop_three.
Qed.

Lemma format_option_shape entry v :
  format_option fault show entry = Returned v → flight_summary v.
Proof.
  unfold format_option.
  repeat match goal with
         | |- mbind _ ?o = Returned _ → _ =>
             destruct o; simpl; [|discriminate]
         end.
  intros [= <-]. unfold flight_summary. eauto 10.
Qed.

Lemma format_options_shape : ∀ options formatted,
  format_options fault show options = Returned formatted →
  Forall flight_summary formatted ∧ length formatted = length options.
Proof.
  induction options as [|option rest IH]; intros formatted; cbn [format_options].
  - intros [= <-]. by split.
  - simpl.
    destruct (format_option fault show option) as [v|?] eqn:Hv;
      simpl; [|done].
    destruct (format_options fault show rest) as [others|?];
      simpl; [|done].
    intros [= <-]. destruct (IH others eq_refl) as [Hall Hlen].
    split; [constructor; [exact (format_option_shape _ _ Hv)|done]|simpl; by rewrite Hlen].
Qed.

Lemma read_flights_shape found v :
  read_flights fault show found = Returned v → flights_value v.
Proof.
  unfold read_flights, flights_value. destruct found as [data|text].
  - simpl.
    destruct (contains fault "best_flights" data) as [[|]|?];
      simpl; [| |done].
    + destruct (subscript fault "best_flights" data) as [results|?];
        simpl; [|done].
      destruct (iterate fault results) as [options|?];
        simpl; [|done].
      destruct (format_options fault show options) as [formatted|?] eqn:Hf;
        simpl; [|done].
      intros [= <-]. right. eexists. split; [done|].
      apply format_options_shape in Hf as [Hall _].
      split; [rewrite length_take; lia|by apply Forall_take].
    + intros [= <-]. left. eauto.
  - intros [= <-]. left. eauto.
Qed.

Lemma retry_loop_shape attempts params_dict : ∀ w,
  attempts ≠ [] →
  last attempts = Some (max_retries - 1)%nat →
  flights_value (retry_loop fault show search is_serp_error attempts params_dict w).2.
Proof.
  induction attempts as [|attempt rest IH]; intros w Hne Hlast; [done|].
  cbn [retry_loop]. unfold attempt_once.
  destruct (search params_dict w) as [w' [found|e]].
  - destruct (read_flights fault show found) as [v|e] eqn:Hread.
    + by apply read_flights_shape in Hread.
    + destruct (attempt <? max_retries - 1)%nat eqn:Hlt; [|left; eauto].
      destruct rest as [|next rest]; [|by apply IH].
      simpl in Hlast. injection Hlast as ->. by rewrite Nat.ltb_irrefl in Hlt.
  - destruct (is_serp_error e).
    all: destruct (attempt <? max_retries - 1)%nat eqn:Hlt; [|left; eauto].
    all: destruct rest as [|next rest]; [|by apply IH].
    all: simpl in Hlast; injection Hlast as ->; by rewrite Nat.ltb_irrefl in Hlt.
Qed.

Lemma flights_finder_shape api_key (params : FlightsInput)
    (w : World) :
  flights_value
    (flights_finder fault show strptime search is_serp_error api_key params w).2.
Proof.
  assert (Hloop : ∀ pd, flights_value
            (retry_loop fault show search is_serp_error (seq 0 max_retries) pd w).2)
    by (intros; by apply retry_loop_shape).
  unfold flights_finder.
  destruct api_key as [[|k key]|]; [left; eauto| |left; eauto].
  destruct (validate_airport_code (departure_airport params)); [|left; eauto].
  destruct (validate_airport_code (arrival_airport params)); [|left; eauto].
  destruct (validate_date_format strptime (outbound_date params)); [|left; eauto].
  cbn [negb]. destruct (given_return_date params) as [d|]; [|apply Hloop].
  destruct (validate_date_format strptime d); [apply Hloop|left; eauto].
Qed.

(** X24.  Whatever its arguments, the key and the search service,
    [flights_finder] returns either a dict with the single key ['error'] or a
    list of at most five dicts, each with exactly the keys airline,
    flight_number, departure_time, arrival_time, duration, price and stops,
    the price being a text; it never returns [None] (and, being a function
    into values, never raises). *)
Theorem flights_finder_returns_error_or_summaries api_key (params : FlightsInput)
    (w : World) :
  flights_value
    (flights_finder fault show strptime search is_serp_error api_key params w).2.
Proof. apply flights_finder_shape. Qed.

Lemma read_hotels_shape found v :
  read_hotels fault found = Returned v → hotels_value v.
Proof.
  unfold read_hotels, hotels_value. simpl.
  destruct found as [data|text]; simpl; [|done].
  destruct (contains fault "properties" data) as [[|]|?];
    simpl; [| |done].
  - destruct (subscript fault "properties" data) as [[| | | |text|items|]|?];
      simpl; try done.
    + intros [= <-]. right. eexists. split; [done|].
      clear. do 5 (destruct text as [|? text]; [simpl; lia|]). simpl. lia.
    + intros [= <-]. left. eexists. split; [done|]. rewrite length_take. lia.
  - intros [= <-]. left. exists []. split; [done|simpl; lia].
Qed.

(** X25.  [hotels_finder] lets an exception of the search through as it
    is; when the answer has no ['properties'] it returns the empty list;
    when ['properties'] is a list it returns its first five entries; and
    whatever it returns is a list of at most five items or a text of at most
    five characters, never a dict. *)
Theorem hotels_finder_outcomes api_key (params : HotelsInput) (w : World) :
  let params_dict := hotels_params_dict py_int api_key params in
  let r := hotels_finder fault search py_int api_key params w in
  (∀ w' e, search params_dict w = (w', Raised e) → r = (w', Raised e))
  ∧ (∀ w' items, search params_dict w = (w', Returned (SerpResults (JDict items))) →
       jlookup items "properties" = None → r = (w', Returned (JList [])))
  ∧ (∀ w' items found, search params_dict w = (w', Returned (SerpResults (JDict items))) →
       jlookup items "properties" = Some (JList found) →
       r = (w', Returned (JList (take 5 found))))
  ∧ (∀ v, r.2 = Returned v → hotels_value v).
Proof.
  cbn zeta. unfold hotels_finder. repeat split.
  - by intros w' e ->.
  - intros w' items ->. unfold read_hotels. simpl.
    intros ->. by rewrite bool_decide_eq_false_2; [|intros [? ?]].
  - intros w' items found ->. unfold read_hotels.
    simpl. intros ->.
    by rewrite bool_decide_eq_true_2.
  - intros v. destruct (search _ w) as [w' [found|e]]; [|done].
    apply read_hotels_shape.
Qed.

(** X26.  When the tool behind a call is [hotels_finder], the executor
    counts the call as failed exactly when the search raised, and then the
    message carries the exception's text in the error format; a search that
    returns, even with no hotel at all, is a success whose message is the
    printed value. *)
Theorem hotel_call_fails_only_by_exception (self : Agent World) tc w api_key
    (params : HotelsInput) w0 :
  let r := hotels_finder fault search py_int api_key params w0 in
  call_tool self tc w = (r.1, as_tool_result show r.2) →
  match r.2 with
  | Returned v =>
      failed_of self tc w = None
      ∧ content (result_of self tc w) = text_of show v
  | Raised e =>
      failed_of self tc w = Some (tc_name tc)
      ∧ content (result_of self tc w) = _format_error_message (tc_name tc) (exn_text e)
  end.
Proof.
  cbn zeta. intros Hcall.
  pose proof (read_hotels_shape) as Hshape.
  unfold failed_of, result_of.
  destruct (hotels_finder fault search py_int api_key params w0) as [w' [v|e]] eqn:Hh;
    cbn [fst snd as_tool_result] in *.
  - assert (Hv : hotels_value v).
    { unfold hotels_finder in Hh. destruct (search _ w0) as [w1 [found|e]]; [|done].
      injection Hh as _ Hh. by apply (Hshape found). }
    destruct Hv as [(items & -> & _)|(text & -> & _)].
    + by rewrite (ExecutorFacts.run_tool_call_success _ _ _ _ _ Hcall eq_refl).
    + by rewrite (ExecutorFacts.run_tool_call_success _ _ _ _ _ Hcall eq_refl).
  - by rewrite (ExecutorFacts.run_tool_call_raised _ _ _ _ _ Hcall).
Qed.

(** X27.  When the tool behind a call is [flights_finder], the executor
    counts the call as failed exactly when the tool returned its error dict,
    and then the message carries that dict's text in the error format; a
    list of flights, even an empty one, is a success. *)
Theorem flight_call_fails_only_by_error_dict (self : Agent World) tc w w' api_key
    (params : FlightsInput) w0 :
  let v := (flights_finder fault show strptime search is_serp_error api_key params w0).2 in
  call_tool self tc w = (w', Returned (to_pyval show v)) →
  (∃ text, v = error_map text
     ∧ failed_of self tc w = Some (tc_name tc)
     ∧ content (result_of self tc w) = _format_error_message (tc_name tc) text)
  ∨ (∃ summaries, v = JList summaries
       ∧ failed_of self tc w = None
       ∧ content (result_of self tc w) = show (JList summaries)).
Proof.
  cbn zeta. intros Hcall. unfold failed_of, result_of.
  destruct (flights_finder_shape api_key params w0)
    as [(text & Hv)|(summaries & Hv & _)]; rewrite Hv in *.
  - left. exists text. split; [done|].
    by rewrite (ExecutorFacts.run_tool_call_error_dict _ _ _ _ _ (PyStr_ text) Hcall eq_refl).
  - right. exists summaries. split; [done|].
    by rewrite (ExecutorFacts.run_tool_call_success _ _ _ _ _ Hcall eq_refl).
Qed.

End WithWorld.

End SearchFacts.

(** ** The forecast request and the search tools on concrete services *)
Module ToolInstances.

Import PyStr PyJson Agent Forecast Search SearchAux Scenario Services.

Lemma complete_answer_gives_the_forecast_witness :
  forecast_request plain_fault plain_show fetch_one_day "secret" "Melbourne" "2026-11-10"
  = [("location", PyStr_ "Melbourne");
     ("date", PyStr_ "2026-11-10");
     ("condition", to_pyval plain_show (JStr "Sunny"));
     ("avg_temp_c", to_pyval plain_show (JFloat "18.0" false));
     ("max_temp_c", to_pyval plain_show (JFloat "24.1" false));
     ("min_temp_c", to_pyval plain_show (JFloat "12.3" false));
     ("source", PyStr_ "WeatherAPI.com")].
Proof.
  exact (ForecastFacts.complete_answer_gives_the_forecast plain_fault plain_show
           fetch_one_day "secret" "Melbourne" "2026-11-10" _ _ _ _ _ _ _ _ _ _
           eq_refl eq_refl eq_refl eq_refl eq_refl eq_refl eq_refl eq_refl eq_refl).
Defined.


Lemma flights_checks_come_before_any_search_witness :
  flights_finder plain_fault plain_show Datetime.strptime search_third_time client_error
    None sydney_to_melbourne (mkWorld 0 0)
  = (mkWorld 0 0, error_map "SERPAPI_API_KEY environment variable is not set.")
  ∧ flights_finder plain_fault plain_show Datetime.strptime search_third_time client_error
      (Some "secret")
      (mkFlightsInput "syd" "m3l" "2026-11-05" None None None None None None) (mkWorld 0 0)
    = (mkWorld 0 0,
       error_map "Invalid arrival airport code: m3l. Must be a valid 3-letter IATA code.")
  ∧ flights_finder plain_fault plain_show Datetime.strptime search_third_time client_error
      (Some "secret")
      (mkFlightsInput "syd" "mel" "2026-11-05" (Some "10/11/2026") None None None None None)
      (mkWorld 0 0)
    = (mkWorld 0 0,
       error_map "Invalid return date format: 10/11/2026. Must be in YYYY-MM-DD format.").
Proof.
  split; [|split].
  - apply (SearchFacts.flights_checks_come_before_any_search plain_fault plain_show
             Datetime.strptime search_third_time client_error None sydney_to_melbourne
             (mkWorld 0 0)).
    by left.
  - destruct (SearchFacts.flights_checks_come_before_any_search plain_fault plain_show
                Datetime.strptime search_third_time client_error (Some "secret")
                (mkFlightsInput "syd" "m3l" "2026-11-05" None None None None None None)
                (mkWorld 0 0)) as [_ H].
    destruct (H "s"%char "ecret" eq_refl) as (_ & Harrival & _).
    apply Harrival; vm_compute; reflexivity.
  - destruct (SearchFacts.flights_checks_come_before_any_search plain_fault plain_show
                Datetime.strptime search_third_time client_error (Some "secret")
                (mkFlightsInput "syd" "mel" "2026-11-05" (Some "10/11/2026") None None None
                   None None)
                (mkWorld 0 0)) as [_ H].
    destruct (H "s"%char "ecret" eq_refl) as (_ & _ & _ & Hreturn).
    apply (Hreturn eq_refl eq_refl eq_refl "10/11/2026" eq_refl); vm_compute; reflexivity.
Defined.

Lemma flights_retry_at_most_three_times_witness :
  (find_flights search_third_time).1 = mkWorld 0 3
  ∧ ∃ n, (1 <= n <= 3)%nat
      ∧ (find_flights search_third_time).1
        = after_attempts plain_fault plain_show search_third_time client_error n
            (flights_params_dict plain_show "secret" sydney_to_melbourne) (mkWorld 0 0).
Proof.
  split; [vm_compute; reflexivity|].
  destruct (SearchFacts.flights_retry_at_most_three_times plain_fault plain_show
              Datetime.strptime search_third_time client_error "s"%char "ecret"
              sydney_to_melbourne (mkWorld 0 0) eq_refl eq_refl eq_refl)
    as (n & Hn & Hw & _).
  - intros d Hd. vm_compute in Hd. discriminate Hd.
  - exists n. split; [exact Hn|exact Hw].
Defined.

Lemma hotels_finder_outcomes_witness :
  find_hotels search_down
  = (mkWorld 0 1, Raised (Exn "HTTPConnectionError" "Connection refused"))
  ∧ find_hotels search_nothing = (mkWorld 0 1, Returned (JList [])).
Proof.
  destruct (SearchFacts.hotels_finder_outcomes plain_fault search_down no_int
              (Some "secret") melbourne_hotels (mkWorld 0 0)) as (Hraised & _).
  destruct (SearchFacts.hotels_finder_outcomes plain_fault search_nothing no_int
              (Some "secret") melbourne_hotels (mkWorld 0 0)) as (_ & Hnone & _).
  split.
  - exact (Hraised _ _ eq_refl).
  - exact (Hnone _ _ eq_refl eq_refl).
Defined.

Lemma hotel_call_fails_only_by_exception_witness :
  failed_of (agent_searching search_down) hotels_call (mkWorld 0 0) = Some "hotels_finder"
  ∧ content (result_of (agent_searching search_down) hotels_call (mkWorld 0 0))
    = "[HOTELS_FINDER ERROR] Connection refused. The assistant will continue with available information."
  ∧ failed_of (agent_searching search_nothing) hotels_call (mkWorld 0 0) = None.
Proof.
  pose proof (SearchFacts.hotel_call_fails_only_by_exception plain_fault plain_show
                search_down no_int (agent_searching search_down) hotels_call (mkWorld 0 0)
                (Some "secret") melbourne_hotels (mkWorld 0 0) eq_refl) as [Hfailed Htext].
  pose proof (SearchFacts.hotel_call_fails_only_by_exception plain_fault plain_show
                search_nothing no_int (agent_searching search_nothing) hotels_call
                (mkWorld 0 0) (Some "secret") melbourne_hotels (mkWorld 0 0) eq_refl)
    as [Hfine _].
  split; [exact Hfailed|]. split; [exact Htext|exact Hfine].
Defined.

Lemma flight_call_fails_only_by_error_dict_witness :
  failed_of (agent_searching search_down) flights_call (mkWorld 0 0) = Some "flights_finder"
  ∧ content (result_of (agent_searching search_down) flights_call (mkWorld 0 0))
    = "[FLIGHTS_FINDER ERROR] SerpAPI error: Connection refused. Please try again later.. The assistant will continue with available information.".
Proof.
  destruct (SearchFacts.flight_call_fails_only_by_error_dict plain_fault plain_show
              Datetime.strptime search_down client_error (agent_searching search_down)
              flights_call (mkWorld 0 0) (mkWorld 0 3) (Some "secret") sydney_to_melbourne
              (mkWorld 0 0) eq_refl)
    as [(text & Hv & Hfailed & Htext)|(summaries & Hv & _)].
  - split; [exact Hfailed|]. rewrite Htext.
    vm_compute in Hv. injection Hv as <-. reflexivity.
  - vm_compute in Hv. discriminate Hv.
Defined.

End ToolInstances.
